(** * Inboxen: the email view ([views/inbox/email.py])

    A shallow embedding of [EmailView.find_body] and
    [EmailView.get_context_data], the two methods that choose the body
    of a stored message, sanitise it and decide whether remote images are
    shown.

    Python byte strings and header values are Rocq [string]s, Python
    dictionaries are [gmap]s, Python integers are [Z].  Exceptions and
    the messages sent through [django.contrib.messages] are threaded by a
    small monad.  What the view calls in third-party libraries
    (Premailer, lxml, the codec registry, [int]) is an interface,
    [Libraries], over which every definition and theorem is generic. *)

From Stdlib Require Import ZArith String Ascii List Bool.
From stdpp Require Import base option list gmap strings fin_maps.

#[local] Set Warnings "-register-all".

Local Open Scope string_scope.
Local Open Scope list_scope.
Local Open Scope Z_scope.

(** ** Python exceptions, results and the message store *)

Module Py.

(** The exception classes the view's handlers tell apart.  A
    constructor stands for the class and its subclasses, so
    [ValueError] covers [UnicodeDecodeError] and [LxmlError] covers
    [ParserError] and [XMLSyntaxError]. *)
Inductive exn : Type :=
| KeyError
| IndexError
| ValueError
| LxmlError
| LookupError
| TypeError
| AttributeError
| OtherException.

Inductive result (A : Type) : Type :=
| Ok (a : A)
| Raise (e : exn).
Arguments Ok {A} a.
Arguments Raise {A} e.

(** [except Exception:] *)
Definition any_Exception (_ : exn) : bool := true.

(** [except (etree.LxmlError, ValueError):] *)
Definition LxmlError_or_ValueError (e : exn) : bool :=
  match e with
  | LxmlError | ValueError => true
  | _ => false
  end.

(** [django.contrib.messages]: a level and a text, appended to the
    request's store. *)
Inductive level : Type := WARNING | ERROR.
Definition message : Type := level * string.

(** A computation reads the store, may add to it, and either returns
    or raises.  Messages added before a raise stay in the store. *)
Definition M (A : Type) : Type := list message -> list message * result A.

Definition ret {A} (a : A) : M A := fun s => (s, Ok a).
Definition raise {A} (e : exn) : M A := fun s => (s, Raise e).
Definition bind {A B} (m : M A) (f : A -> M B) : M B :=
  fun s => match m s with
           | (s', Ok a) => f a s'
           | (s', Raise e) => (s', Raise e)
           end.
Definition lift {A} (r : result A) : M A := fun s => (s, r).

Definition and_then {A B} (r : result A) (f : A -> result B) : result B :=
  match r with
  | Ok a => f a
  | Raise e => Raise e
  end.

(** [try: m except <classes>: h] *)
Definition try_except {A} (m : M A) (classes : exn -> bool) (h : M A) : M A :=
  fun s => match m s with
           | (s', Ok a) => (s', Ok a)
           | (s', Raise e) => if classes e then h s' else (s', Raise e)
           end.

Definition add_message (l : level) (text : string) : M unit :=
  fun s => ((s ++ [(l, text)])%list, Ok tt).

Definition level_eqb (a b : level) : bool :=
  match a, b with
  | WARNING, WARNING | ERROR, ERROR => true
  | _, _ => false
  end.

Definition message_eqb (a b : message) : bool :=
  level_eqb a.1 b.1 && String.eqb a.2 b.2.

(** How many times a message is in a store. *)
Definition emitted (msg : message) (store : list message) : nat :=
  length (List.filter (message_eqb msg) store).

(** [d[k]] on a dictionary. *)
Definition getitem {V} (d : gmap string V) (k : string) : result V :=
  match d !! k with
  | Some v => Ok v
  | None => Raise KeyError
  end.

(** [dict(pairs)]: a later pair with the same key replaces an earlier
    one. *)
Definition dict (pairs : list (string * string)) : gmap string string :=
  foldl (fun d kv => <[kv.1 := kv.2]> d) ∅ pairs.

(** [d.update(other)] *)
Definition update (d other : gmap string string) : gmap string string :=
  other ∪ d.

(** [s.split(sep, 1)] for a one-character separator. *)
Fixpoint split1 (sep : ascii) (s : string) : list string :=
  match s with
  | EmptyString => [EmptyString]
  | String c s' =>
      if Ascii.eqb c sep then [EmptyString; s']
      else match split1 sep s' with
           | h :: t => String c h :: t
           | [] => [String c EmptyString]
           end
  end.

(** [s.startswith(p)] *)
Definition startswith (s p : string) : bool := String.prefix p s.

End Py.

(** [do x <- m; k] runs [m] and goes on with [k] unless [m] raised;
    [let? x := r in k] is the same for a result without messages. *)
Notation "'do' x <- m ; k" := (Py.bind m (fun x => k))
  (at level 10, x name, m at level 100, k at level 200).
Notation "'do' ' p <- m ; k" := (Py.bind m (fun x => match x with p => k end))
  (at level 10, p pattern, m at level 100, k at level 200).
Notation "'let?' x := r 'in' k" := (Py.and_then r (fun x => k))
  (at level 10, x name, r at level 100, k at level 200).

(** ** Header parameters

    The compiled pattern [HEADER_PARAMS]: one or more of [a-zA-Z0-9]
    (group 1), an equals sign, an optional single or double quote, one
    or more characters that are neither a quote nor a semicolon nor an
    equals sign (group 2), an optional quote, an optional semicolon. *)

Module HeaderParams.

Definition in_range (lo hi : nat) (c : ascii) : bool :=
  let n := nat_of_ascii c in (lo <=? n)%nat && (n <=? hi)%nat.

(** [[a-zA-Z0-9]] *)
Definition is_word (c : ascii) : bool :=
  in_range 97 122 c || in_range 65 90 c || in_range 48 57 c.

(** The class of the two quote characters (codes 34 and 39). *)
Definition is_quote (c : ascii) : bool :=
  Ascii.eqb c "034"%char || Ascii.eqb c "039"%char.

(** The negated class of group 2: anything but a quote, a semicolon
    or an equals sign (a newline included). *)
Definition is_value (c : ascii) : bool :=
  negb (is_quote c || Ascii.eqb c ";"%char || Ascii.eqb c "="%char).

(** The longest prefix whose characters satisfy [p], and what follows
    it: a greedy [+] or [*] over a character class. *)
Fixpoint span (p : ascii -> bool) (s : string) : string * string :=
  match s with
  | String c s' =>
      if p c then let '(a, b) := span p s' in (String c a, b)
      else (EmptyString, s)
  | EmptyString => (EmptyString, EmptyString)
  end.

(** A greedy [x?] over a character class: how many characters it
    takes (0 or 1) and what follows. *)
Definition optional (p : ascii -> bool) (s : string) : nat * string :=
  match s with
  | String c s' => if p c then (1%nat, s') else (0%nat, s)
  | EmptyString => (0%nat, s)
  end.

(** A match of the pattern anchored at the start of [s]: the two
    groups and the length of the match.  The pattern never needs a
    shorter alternative than the greedy one: a shorter first group is
    followed by a word character, not by [=]; giving back the opening
    quote leaves the second group on a quote, which it excludes; and
    everything after the second group is optional. *)
Definition match_at (s : string) : option (string * string * nat) :=
  let '(key, r1) := span is_word s in
  match key, r1 with
  | String _ _, String "="%char r2 =>
      let '(q1, r3) := optional is_quote r2 in
      let '(value, r4) := span is_value r3 in
      match value with
      | String _ _ =>
          let '(q2, r5) := optional is_quote r4 in
          let '(semi, _) := optional (Ascii.eqb ";"%char) r5 in
          Some (key, value,
                (String.length key + 1 + q1 + String.length value + q2 + semi)%nat)
      | EmptyString => None
      end
  | _, _ => None
  end.

(** [HEADER_PARAMS.findall(s)]: matches are looked for from left to
    right and do not overlap; [skip] counts the characters of the last
    match still to be passed over. *)
Fixpoint findall_from (skip : nat) (s : string) : list (string * string) :=
  match s with
  | EmptyString => []
  | String _ s' =>
      match skip with
      | S n => findall_from n s'
      | O =>
          match match_at s with
          | Some (key, value, len) => (key, value) :: findall_from (Nat.pred len) s'
          | None => findall_from 0 s'
          end
      end
  end.

Definition findall (s : string) : list (string * string) := findall_from 0 s.

End HeaderParams.

(** ** lxml elements and the libraries the view calls *)

Module Lxml.

(** An element of a parsed document. *)
Inductive element : Type :=
  Element {
    tag : string;
    attrib : gmap string string;
    text : string;
    tail : string;
    children : list element
  }.

(** The keyword arguments of [Cleaner(...)] that the view sets, and
    the [kill_tags] it assigns afterwards. *)
Record Cleaner : Type :=
  { page_structure : bool; meta : bool; links : bool; javascript : bool;
    scripts : bool; frames : bool; embedded : bool; safe_attrs_only : bool;
    kill_tags : list string }.

End Lxml.

(** A decoded (unicode) string: its code points. *)
Definition unicode : Type := list N.

(** What the view imports and calls but does not define. *)
Class Libraries : Type :=
  { (** [Premailer(body).transform()] *)
    Premailer_transform : string -> Py.result string;
    (** [cleaner.clean_html(body)] *)
    clean_html : Lxml.Cleaner -> string -> Py.result string;
    (** [lxml_html.fromstring(body)] *)
    fromstring : string -> Py.result Lxml.element;
    (** [etree.tostring(tree)] *)
    tostring : Lxml.element -> Py.result string;
    (** [unicode(body, charset, errors=replace)] *)
    unicode_decode : string -> string -> Py.result unicode;
    (** [int(text)] *)
    int : string -> Py.result Z }.

(** ** The stored message, the request and the view *)

(** A row of [inboxen.models.PartList] with its headers and body. *)
Record MimePart : Type :=
  { part_id : Z;
    parent : option Z;
    lft : Z;
    rght : Z;
    header_set : gmap string string;
    body_data : string }.

(** A part as the loop of [get_context_data] leaves it: the row and the
    [charset] attribute assigned to it. *)
Record Part : Type :=
  { row :> MimePart;
    charset : string }.

(** [part_head] once the loop body is through with it. *)
Record PartHead : Type :=
  { content_type : list string;
    filename : string }.

Record Email : Type :=
  { id : Z;
    eid : string;
    received_date : Z;
    inbox : string;
    (** the headers of the part that has no parent *)
    top_headers : gmap string string;
    parts : list MimePart }.

Module Profile.
Record flags : Type :=
  { prefer_html_email : bool;
    ask_images : bool;
    display_images : bool }.
End Profile.

Record Request : Type :=
  { GET : gmap string string;
    userprofile : Profile.flags }.

Record EmailView : Type :=
  { object : Email;
    request : Request;
    (** [cache.get(self.object.id, version=email-header)] *)
    cached_headers : option (gmap string string) }.

(** [email_dict] as returned, and the entries the view adds to the
    context of its base class. *)
Module EmailDict.
Record t : Type :=
  { subject : string;
    from : string;
    date : Z;
    inbox : string;
    eid : string;
    body : unicode;
    charset : string }.
End EmailDict.

Record Context : Type :=
  { email : EmailDict.t;
    plain_message : bool;
    attachments : list (Part * PartHead);
    ask_images : bool }.

(** The three values the middle of [get_context_data] keeps rewriting:
    [email_dict[body]], still a byte string, [email_dict[charset]] and the
    local [plain_message]. *)
Module Draft.
Record t : Type :=
  { body : string;
    charset : string;
    plain_message : bool }.
End Draft.

(** Modelled from the spec: [get_many] of the message repository
    ([inboxen.models], outside this file), which the spec describes as
    supplying resolved header values: the dictionary of those of the
    named headers that are present. *)
Definition get_many (names : list string) (headers : gmap string string)
  : gmap string string :=
  foldr (fun name d => match headers !! name with
                       | Some data => <[name := data]> d
                       | None => d
                       end) ∅ names.

(** ** [find_body] *)

(** [Some true]: the body is the plain part; [Some false]: the HTML
    part; [None]: no viable body. *)
Definition find_body (self : EmailView) (html plain : option Part) : option bool :=
  match html, plain with
  | None, None => None
  | None, Some _ => Some true
  | Some _, None => Some false
  | Some html, Some plain =>
      if bool_decide (parent html = parent plain) then
        Some (negb (Profile.prefer_html_email (userprofile (request self))))
      else if bool_decide (lft html < lft plain) then Some false
      else Some true
  end.

(** ** The loop over the MIME parts *)

Record Found : Type :=
  { html : option Part;
    plain : option Part;
    found : list (Part * PartHead) }.

(** Lines 125 and 126: the Content-Type value split at its first
    semicolon. *)
Definition split_content_type (part : MimePart) : list string :=
  let part_head := get_many ["Content-Type"; "Content-Disposition"] (header_set part) in
  Py.split1 ";" (default EmptyString (part_head !! "Content-Type")).

(** Line 127. *)
Definition disposition (part : MimePart) : string :=
  let part_head := get_many ["Content-Type"; "Content-Disposition"] (header_set part) in
  default EmptyString (part_head !! "Content-Disposition").

(** Lines 132 to 136: the parameters of both headers, those of the
    disposition replacing those of the content type. *)
Definition parameters (part : MimePart) : gmap string string :=
  let params :=
    match split_content_type part !! 1%nat with
    | Some text => Py.dict (HeaderParams.findall text)
    | None (* IndexError *) => ∅
    end in
  Py.update params (Py.dict (HeaderParams.findall (disposition part))).

(** Lines 139 to 144. *)
Definition find_filename (params : gmap string string) : string :=
  match params !! "filename", params !! "name" with
  | Some f, _ => f
  | None, Some f => f
  | None, None => EmptyString
  end.

(** Line 147: [params.get(charset, utf-8)]. *)
Definition grab_charset (params : gmap string string) : string :=
  default "utf-8" (params !! "charset").

(** One pass of the loop body up to line 147: the part with its
    charset, and its [part_head].  [None] is the [continue] of a
    container. *)
Definition classify (part : MimePart) : option (Part * PartHead) :=
  let content_type := split_content_type part in
  let main := default EmptyString (content_type !! 0%nat) in
  if Py.startswith main "multipart" || Py.startswith main "message" then None
  else
    let params := parameters part in
    Some ({| row := part; charset := grab_charset params |},
          {| content_type := content_type; filename := find_filename params |}).

Definition loop_body (st : Found) (part : MimePart) : Found :=
  match classify part with
  | None => st
  | Some (p, part_head) =>
      let main := default EmptyString (content_type part_head !! 0%nat) in
      let '(h, pl) :=
        if bool_decide (html st = None) && String.eqb main "text/html"
        then (Some p, plain st)
        else if bool_decide (plain st = None) && String.eqb main "text/plain"
        then (html st, Some p)
        else (html st, plain st) in
      {| html := h; plain := pl; found := found st ++ [(p, part_head)] |}
  end.

Definition iterate_parts (ps : list MimePart) : Found :=
  foldl loop_body {| html := None; plain := None; found := [] |} ps.

(** What the loop leaves for the message of a view. *)
Definition found_parts (self : EmailView) : Found :=
  iterate_parts (parts (object self)).

(** ** The raw body *)

(** [o.attr] on a variable that may hold [None]. *)
Definition deref {A} (o : option A) : Py.result A :=
  match o with
  | Some a => Py.Ok a
  | None => Py.Raise Py.AttributeError
  end.

(** Lines 157 to 171: the body before any cleaning. *)
Definition set_raw_body (self : EmailView) (st : Found) : Py.result Draft.t :=
  match find_body self (html st) (plain st) with
  | None =>
      match found st with
      | [(part, _)] =>
          Py.Ok {| Draft.body := body_data part; Draft.charset := charset part;
                   Draft.plain_message := true |}
      | _ =>
          Py.Ok {| Draft.body := EmptyString; Draft.charset := "utf-8";
                   Draft.plain_message := true |}
      end
  | Some true =>
      match deref (plain st) with
      | Py.Ok part =>
          Py.Ok {| Draft.body := body_data part; Draft.charset := charset part;
                   Draft.plain_message := true |}
      | Py.Raise e => Py.Raise e
      end
  | Some false =>
      match deref (html st) with
      | Py.Ok part =>
          Py.Ok {| Draft.body := body_data part; Draft.charset := charset part;
                   Draft.plain_message := false |}
      | Py.Raise e => Py.Raise e
      end
  end.

(** ** Cleaning the HTML body *)

Definition cleaner : Lxml.Cleaner :=
  {| Lxml.page_structure := true; Lxml.meta := true; Lxml.links := true;
     Lxml.javascript := true; Lxml.scripts := true; Lxml.frames := true;
     Lxml.embedded := true; Lxml.safe_attrs_only := true;
     Lxml.kill_tags := ["style"; "base"] |}.

Definition parse_warning : string :=
  "Part of this message could not be parsed - it may not display correctly".

Definition invalid_html_error : string :=
  "This email contained invalid HTML and could not be displayed".

(** The body and charset both handlers fall back to: the plain part's,
    if there is a plain part and its body is not empty. *)
Definition fallback (plain : option Part) : string * string :=
  match plain with
  | Some part =>
      if (0 <? String.length (body_data part))%nat
      then (body_data part, charset part)
      else (EmptyString, "utf-8")
  | None => (EmptyString, "utf-8")
  end.

(** Lines 173 to 200. *)
Definition sanitize `{Libraries} (plain : option Part) (d : Draft.t) : Py.M Draft.t :=
  if Draft.plain_message d then Py.ret d
  else
    do body <- Py.try_except (Py.lift (Premailer_transform (Draft.body d)))
                 Py.any_Exception
                 (do _ <- Py.add_message Py.WARNING parse_warning;
                  Py.ret (Draft.body d));
    Py.try_except
      (do cleaned <- Py.lift (clean_html cleaner body);
       Py.ret {| Draft.body := cleaned; Draft.charset := Draft.charset d;
                 Draft.plain_message := false |})
      Py.LxmlError_or_ValueError
      (let '(b, c) := fallback plain in
       do _ <- Py.add_message Py.ERROR invalid_html_error;
       Py.ret {| Draft.body := b; Draft.charset := c; Draft.plain_message := true |}).

(** ** Images *)

(** The condition of line 209: the parameter is present and reads as
    the integer 1.  [int] is only called when the parameter is present. *)
Definition one_shot_override `{Libraries} (self : EmailView) : Py.result bool :=
  match GET (request self) !! "imgDisplay" with
  | Some text => let? n := int text in Py.Ok (n =? 1)
  | None => Py.Ok false
  end.

(** Lines 205 to 217: [(img_display, ask_images)]. *)
Definition image_decision `{Libraries} (self : EmailView) (plain_message : bool)
  : Py.result (bool * bool) :=
  if plain_message then Py.Ok (true, false)
  else
    let? override := one_shot_override self in
    if override then Py.Ok (true, false)
    else if Profile.ask_images (userprofile (request self)) then Py.Ok (false, true)
    else Py.Ok (Profile.display_images (userprofile (request self)), false).

(** [del img.attrib[src]], a missing key being passed over. *)
Definition del_src (attrib : gmap string string) : gmap string string :=
  match attrib !! "src" with
  | Some _ => delete "src" attrib
  | None (* KeyError *) => attrib
  end.

(** The loop over [tree.findall(.//img)] seen from one element down: the
    element itself and everything below it. *)
Fixpoint del_img_src (e : Lxml.element) : Lxml.element :=
  {| Lxml.tag := Lxml.tag e;
     Lxml.attrib := if String.eqb (Lxml.tag e) "img" then del_src (Lxml.attrib e)
                    else Lxml.attrib e;
     Lxml.text := Lxml.text e;
     Lxml.tail := Lxml.tail e;
     Lxml.children := map del_img_src (Lxml.children e) |}.

(** [.//img] selects below the root, never the root. *)
Definition remove_sources (tree : Lxml.element) : Lxml.element :=
  {| Lxml.tag := Lxml.tag tree;
     Lxml.attrib := Lxml.attrib tree;
     Lxml.text := Lxml.text tree;
     Lxml.tail := Lxml.tail tree;
     Lxml.children := map del_img_src (Lxml.children tree) |}.

(** Lines 219 to 235. *)
Definition filter_images `{Libraries} (plain : option Part) (img_display : bool)
    (d : Draft.t) : Py.M Draft.t :=
  if img_display then Py.ret d
  else
    Py.try_except
      (do tree <- Py.lift (fromstring (Draft.body d));
       do out <- Py.lift (tostring (remove_sources tree));
       Py.ret {| Draft.body := out; Draft.charset := Draft.charset d;
               Draft.plain_message := Draft.plain_message d |})
      Py.LxmlError_or_ValueError
      (let '(b, c) := fallback plain in
       Py.ret {| Draft.body := b; Draft.charset := c;
                 Draft.plain_message := Draft.plain_message d |}).

(** ** [get_context_data]

    The assignment of the subject to [self.headline] (line 202) has no
    part in what is returned and is left out. *)

(** Lines 108 to 111: the cached headers, or else the Subject and
    From headers of the top-level part. *)
Definition view_headers (self : EmailView) : gmap string string :=
  match cached_headers self with
  | Some cached => cached
  | None => get_many ["Subject"; "From"] (top_headers (object self))
  end.

(** Lines 114 and 115: [(subject, from)]. *)
Definition read_headers (self : EmailView) : Py.result (string * string) :=
  let headers := view_headers self in
  let subject := default "(No subject)" (headers !! "Subject") in
  let? sender := Py.getitem headers "From" in
  Py.Ok (subject, sender).

Definition get_context_data `{Libraries} (self : EmailView) : Py.M Context :=
  do ' (subject, sender) <- Py.lift (read_headers self);
  let st := found_parts self in
  do raw <- Py.lift (set_raw_body self st);
  do cleaned <- sanitize (plain st) raw;
  do ' (img_display, ask) <- Py.lift (image_decision self (Draft.plain_message cleaned));
  do final <- filter_images (plain st) img_display cleaned;
  do text <- Py.lift (unicode_decode (Draft.body final) (Draft.charset final));
  Py.ret {| email := {| EmailDict.subject := subject;
                      EmailDict.from := sender;
                      EmailDict.date := received_date (object self);
                      EmailDict.inbox := inbox (object self);
                      EmailDict.eid := eid (object self);
                      EmailDict.body := text;
                      EmailDict.charset := Draft.charset final |};
          plain_message := Draft.plain_message final;
          attachments := found st;
          ask_images := ask |}.

(** ** Definitions used to state the properties *)

(** The body the cleaner is given: Premailer's output, or the raw body
    when Premailer raised. *)
Definition inlined `{Libraries} (body : string) : string :=
  match Premailer_transform body with
  | Py.Ok out => out
  | Py.Raise _ => body
  end.

(** The messages the Premailer step adds. *)
Definition inline_messages `{Libraries} (body : string) : list Py.message :=
  match Premailer_transform body with
  | Py.Ok _ => []
  | Py.Raise _ => [(Py.WARNING, parse_warning)]
  end.

(** Everything the loop keeps comes from a part of the message that is
    not a container, and the HTML and plain parts are among what it
    keeps. *)
Definition loop_invariant (ps : list MimePart) (st : Found) : Prop :=
  (forall entry, entry ∈ found st ->
     exists part, part ∈ ps /\ classify part = Some entry)
  /\ (forall p, html st = Some p -> exists head, (p, head) ∈ found st)
  /\ (forall p, plain st = Some p -> exists head, (p, head) ∈ found st).


(** A part moved to another position of the tree. *)
Definition with_position (p : Part) (l r : Z) : Part :=
  {| row := {| part_id := part_id p; parent := parent p; lft := l; rght := r;
               header_set := header_set p; body_data := body_data p |};
     charset := charset p |}.

(** The charsets the loop assigned to the parts it kept. *)
Definition declared_charsets (self : EmailView) : list string :=
  map (fun entry => charset entry.1) (found (found_parts self)).

(** The context returned for a decoded body. *)
Definition context_of (self : EmailView) (headers : string * string)
    (text : unicode) (charset : string) (plain ask : bool) : Context :=
  {| email := {| EmailDict.subject := headers.1;
                 EmailDict.from := headers.2;
                 EmailDict.date := received_date (object self);
                 EmailDict.inbox := inbox (object self);
                 EmailDict.eid := eid (object self);
                 EmailDict.body := text;
                 EmailDict.charset := charset |};
     plain_message := plain;
     attachments := found (found_parts self);
     ask_images := ask |}.

(** ** A small instance of the libraries and some stored messages

    Enough of an implementation to run the view on the messages below.
    The cleaner and the parser accept what starts with an angle bracket;
    the parser, like lxml on a unicode string, refuses a leading XML
    declaration.  Decoding knows utf-8 (exact on the ASCII bodies used
    here), ascii and latin-1.  [int] reads a run of decimal digits. *)

Module Sample.

Definition replace_high (c : ascii) : N :=
  let n := N_of_ascii c in if (n <? 128)%N then n else 65533%N.

Definition decode (body charset : string) : Py.result unicode :=
  if String.eqb charset "utf-8" || String.eqb charset "us-ascii"
  then Py.Ok (map replace_high (list_ascii_of_string body))
  else if String.eqb charset "latin-1"
  then Py.Ok (map N_of_ascii (list_ascii_of_string body))
  else Py.Raise Py.LookupError.

Definition digit (c : ascii) : option Z :=
  if HeaderParams.in_range 48 57 c then Some (Z.of_nat (nat_of_ascii c) - 48) else None.

Fixpoint digits (acc : Z) (s : string) : Py.result Z :=
  match s with
  | EmptyString => Py.Ok acc
  | String c s' =>
      match digit c with
      | Some d => digits (10 * acc + d) s'
      | None => Py.Raise Py.ValueError
      end
  end.

Definition decimal (s : string) : Py.result Z :=
  match s with
  | EmptyString => Py.Raise Py.ValueError
  | _ => digits 0 s
  end.

Definition clean (_ : Lxml.Cleaner) (body : string) : Py.result string :=
  if Py.startswith body "<" then Py.Ok body else Py.Raise Py.LxmlError.

Definition parse (body : string) : Py.result Lxml.element :=
  if Py.startswith body "<?xml" then Py.Raise Py.ValueError
  else if Py.startswith body "<"
  then Py.Ok {| Lxml.tag := "div"; Lxml.attrib := ∅; Lxml.text := body;
                Lxml.tail := EmptyString; Lxml.children := [] |}
  else Py.Raise Py.LxmlError.

Definition serialise (tree : Lxml.element) : Py.result string :=
  Py.Ok (Lxml.text tree).

#[export] Instance libraries : Libraries :=
  {| Premailer_transform := fun body => Py.Ok body;
     clean_html := clean;
     fromstring := parse;
     tostring := serialise;
     unicode_decode := decode;
     int := decimal |}.

Definition container : MimePart :=
  {| part_id := 1; parent := None; lft := 1; rght := 6;
     header_set := {[ "Content-Type" := "multipart/alternative; boundary=b" ]};
     body_data := EmptyString |}.

Definition text_part (body : string) : MimePart :=
  {| part_id := 2; parent := Some 1; lft := 2; rght := 3;
     header_set := {[ "Content-Type" := "text/plain; charset=us-ascii" ]};
     body_data := body |}.

Definition html_part (body : string) : MimePart :=
  {| part_id := 3; parent := Some 1; lft := 4; rght := 5;
     header_set := {[ "Content-Type" := "text/html; charset=utf-8" ]};
     body_data := body |}.

Definition image_part : MimePart :=
  {| part_id := 2; parent := Some 1; lft := 2; rght := 3;
     header_set := <[ "Content-Disposition" := "attachment; filename=a.png" ]>
                     {[ "Content-Type" := "image/png; charset=latin-1" ]};
     body_data := "PNG" |}.

Definition message (headers : gmap string string) (ps : list MimePart) : Email :=
  {| id := 7; eid := "7"; received_date := 0; inbox := "inbox@example.com";
     top_headers := headers; parts := ps |}.

Definition both_headers : gmap string string :=
  <[ "Subject" := "Hello" ]> {[ "From" := "a@example.com" ]}.

Definition view (e : Email) (query : gmap string string) (prefer ask display : bool)
  : EmailView :=
  {| object := e;
     request := {| GET := query;
                   userprofile := {| Profile.prefer_html_email := prefer;
                                     Profile.ask_images := ask;
                                     Profile.display_images := display |} |};
     cached_headers := None |}.

(** An alternative message whose HTML body the cleaner accepts. *)
Definition alternative : Email :=
  message both_headers [container; text_part "hi"; html_part "<p>hi</p>"].

(** The same with an HTML body the cleaner refuses. *)
Definition garbled : Email :=
  message both_headers [container; text_part "hi"; html_part "garbage"].

(** The same with an HTML body the cleaner accepts and the parser of the
    image step refuses. *)
Definition declared : Email :=
  message both_headers
    [container; text_part "hi"; html_part "<?xml version=1.0 encoding=utf-8?><p>hi</p>"].

(** A message without a From header. *)
Definition anonymous : Email :=
  message {[ "Subject" := "Hello" ]} [container; text_part "hi"; html_part "<p>hi</p>"].


(** A message whose only part that is not a container is an image. *)
Definition picture : Email :=
  message both_headers [container; image_part].

(** A message with nothing but a container. *)
Definition hollow : Email :=
  message both_headers [container].

(** The views of a user who prefers HTML and wants to be asked before
    images are shown, with no query string. *)
Definition alternative_view : EmailView := view alternative ∅ true true false.
Definition garbled_view : EmailView := view garbled ∅ true true false.
Definition declared_view : EmailView := view declared ∅ true true false.
Definition anonymous_view : EmailView := view anonymous ∅ true true false.
Definition picture_view : EmailView := view picture ∅ true true false.
Definition hollow_view : EmailView := view hollow ∅ true true false.

(** The alternative message asked for with a query string. *)
Definition queried_view (value : string) : EmailView :=
  view alternative {[ "imgDisplay" := value ]} true true false.

(** A part as the loop keeps it. *)
Definition kept (part : MimePart) (cs : string) : Part :=
  {| row := part; charset := cs |}.

(** A part hung elsewhere in the tree. *)
Definition moved (part : MimePart) (par : option Z) (l r : Z) : MimePart :=
  {| part_id := part_id part; parent := par; lft := l; rght := r;
     header_set := header_set part; body_data := body_data part |}.

(** The two parts of the alternative message as the loop keeps them. *)
Definition html_kept : Part := kept (html_part "<p>hi</p>") "utf-8".
Definition plain_kept : Part := kept (text_part "hi") "us-ascii".

(** An HTML part and a plain part under different parents with the same
    left value. *)
Definition tied_html : Part := kept (moved (html_part "<p>hi</p>") (Some 1) 2 3) "utf-8".
Definition tied_plain : Part := kept (moved (text_part "hi") (Some 9) 2 3) "us-ascii".

(** An HTML part at left 5 and a plain part at left 2 under different
    parents. *)
Definition late_html : Part := kept (moved (html_part "<p>hi</p>") (Some 1) 5 6) "utf-8".
Definition early_plain : Part := kept (moved (text_part "hi") (Some 9) 2 3) "us-ascii".

End Sample.

(** * The rest of the view

    The definitions below cover what the body of the view does besides
    choosing and cleaning a body: reading the header parameters, walking
    the parts, stripping image sources, and the three entry points
    [get_object], [post] and [get] with the queryset they work on. *)

(** ** Strings and header parameters *)

(** Every character of [s] satisfies [p]. *)
Fixpoint all_chars (p : ascii -> bool) (s : string) : bool :=
  match s with
  | EmptyString => true
  | String c s' => p c && all_chars p s'
  end.

Definition not_word (c : ascii) : bool := negb (HeaderParams.is_word c).

(** [s] is empty or starts with a character that fails [p]: where a
    greedy run of [p] ends. *)
Definition stops (p : ascii -> bool) (s : string) : bool :=
  match s with
  | EmptyString => true
  | String c _ => negb (p c)
  end.

Definition is_not (c : ascii) (d : ascii) : bool := negb (Ascii.eqb d c).

(** A parameter as a header writes it: what separates it from the one
    before (blanks, say), the name, an optional quote on both sides of
    the value, and a closing semicolon. *)
Module Written.
Record t : Type :=
  { pad : string;
    key : string;
    quote : string;
    value : string }.
End Written.

Definition double_quote : string := String "034"%char EmptyString.

Definition write_param (w : Written.t) : string :=
  (Written.pad w ++ Written.key w ++ "=" ++ Written.quote w ++ Written.value w
   ++ Written.quote w ++ ";")%string.

Definition write_params (ws : list Written.t) : string :=
  foldr (fun w rest => (write_param w ++ rest)%string) EmptyString ws.

(** The separator has no letter or digit, the name and the value are
    not empty and made of what the two groups of the pattern accept, and
    the quote is absent, single or double. *)
Definition well_written (w : Written.t) : bool :=
  all_chars not_word (Written.pad w)
  && negb (String.eqb (Written.key w) EmptyString)
  && all_chars HeaderParams.is_word (Written.key w)
  && negb (String.eqb (Written.value w) EmptyString)
  && all_chars HeaderParams.is_value (Written.value w)
  && (String.eqb (Written.quote w) EmptyString
      || String.eqb (Written.quote w) "'"
      || String.eqb (Written.quote w) double_quote).

(** The value a list of pairs gives a name when made a dictionary: that
    of the last pair with this name. *)
Definition last_binding (k : string) (pairs : list (string * string)) : option string :=
  foldl (fun found kv => if String.eqb kv.1 k then Some kv.2 else found) None pairs.

(** The value of a header of the part, empty when the part has no such
    header: what lines 126 and 127 pop. *)
Definition header (part : MimePart) (name : string) : string :=
  default EmptyString (header_set part !! name).

(** The parameters of the content type alone (lines 132 to 135). *)
Definition content_type_params (part : MimePart) : list (string * string) :=
  match split_content_type part !! 1%nat with
  | Some text => HeaderParams.findall text
  | None => []
  end.

(** ** The parts the loop keeps *)

(** The test of line 129. *)
Definition container_type (part : MimePart) : bool :=
  let main := default EmptyString (split_content_type part !! 0%nat) in
  Py.startswith main "multipart" || Py.startswith main "message".

(** [part_head[content_type][0]] *)
Definition main_type (head : PartHead) : string :=
  default EmptyString (content_type head !! 0%nat).

(** The first kept part of a given main type. *)
Definition first_of (type : string) (kept : list (Part * PartHead)) : option Part :=
  fst <$> head (List.filter (fun entry => String.eqb (main_type entry.2) type) kept).

(** ** Elements below the root *)

(** Every element strictly below [e], in document order: what
    [findall] with a path of two slashes ranges over. *)
Fixpoint below (e : Lxml.element) : list Lxml.element :=
  (fix each (cs : list Lxml.element) : list Lxml.element :=
     match cs with
     | [] => []
     | c :: cs' => c :: below c ++ each cs'
     end) (Lxml.children e).

(** [tree.findall(.//img)] *)
Definition findall_img (tree : Lxml.element) : list Lxml.element :=
  List.filter (fun e => String.eqb (Lxml.tag e) "img") (below tree).

(** What the loop of lines 223 to 227 makes of one element below the
    root. *)
Definition without_src (e : Lxml.element) : Lxml.element :=
  {| Lxml.tag := Lxml.tag e;
     Lxml.attrib := if String.eqb (Lxml.tag e) "img" then del_src (Lxml.attrib e)
                    else Lxml.attrib e;
     Lxml.text := Lxml.text e;
     Lxml.tail := Lxml.tail e;
     Lxml.children := Lxml.children e |}.

(** The element without its children. *)
Definition shallow (e : Lxml.element) : string * gmap string string * string * string :=
  (Lxml.tag e, Lxml.attrib e, Lxml.text e, Lxml.tail e).

(** ** The stored messages, [get_queryset], [get_object], [post] and [get] *)

(** What a view method ends in: a value, Django's [Http404], or an
    exception nothing catches. *)
Module Http.
Inductive outcome (A : Type) : Type :=
| Done (a : A)
| Http404
| Uncaught (e : Py.exn).
Arguments Done {A} a.
Arguments Http404 {A}.
Arguments Uncaught {A} e.

Definition of_result {A} (r : Py.result A) : outcome A :=
  match r with
  | Py.Ok a => Done a
  | Py.Raise e => Uncaught e
  end.

Definition and_then {A B} (o : outcome A) (f : A -> outcome B) : outcome B :=
  match o with
  | Done a => f a
  | Http404 => Http404
  | Uncaught e => Uncaught e
  end.
End Http.

(** A row of [inboxen.models.Email] as the view's queries see it: the
    message, the user, name and domain of its inbox, and the names of
    the flags that are set in its bit field. *)
Module Store.
Record row : Type :=
  { message : Email;
    user : string;
    address : string;
    domain : string;
    flags : gset string }.

Definition with_flags (r : row) (fs : gset string) : row :=
  {| message := message r; user := user r; address := address r;
     domain := domain r; flags := fs |}.
End Store.

(** The table, by primary key. *)
Abbreviation Table := (gmap Z Store.row).

(** The request of a logged-in user and the URL arguments of a
    dispatch. *)
Record Dispatch : Type :=
  { (** [self.request.user] *)
    viewer : string;
    (** [self.kwargs] *)
    kwargs : gmap string string;
    (** [self.request.POST] *)
    POST : gmap string string;
    (** [self.request.path] *)
    path : string;
    (** [self.request.GET] and the user's profile *)
    asked : Request;
    (** the header cache, by message id *)
    header_cache : Z -> option (gmap string string) }.

(** [int(text, 16)] *)
Class Builtins : Type :=
  { int16 : string -> Py.result Z }.

(** The filter of lines 64 to 69. *)
Definition visible (d : Dispatch) (inbox domain : string) (r : Store.row) : bool :=
  String.eqb (Store.user r) (viewer d)
  && String.eqb (Store.address r) inbox
  && String.eqb (Store.domain r) domain
  && negb (bool_decide ("deleted" ∈ Store.flags r)).

(** [get_queryset]: the rows of the table that pass the filter.  The two
    URL arguments are looked up first. *)
Definition get_queryset (d : Dispatch) (table : Table) : Py.result Table :=
  let? inbox := Py.getitem (kwargs d) "inbox" in
  let? domain := Py.getitem (kwargs d) "domain" in
  Py.Ok (filter (fun entry => visible d inbox domain entry.2 = true) table).

(** [get_object]: the id is read in base 16, then Django's
    [DetailView.get_object] gets the row with this primary key from the
    queryset and raises [Http404] when there is none. *)
Definition get_object `{Builtins} (d : Dispatch) (table : Table)
  : Http.outcome (Z * Store.row) :=
  Http.and_then (Http.of_result (Py.getitem (kwargs d) "id")) (fun text =>
  Http.and_then (Http.of_result (int16 text)) (fun pk =>
  Http.and_then (Http.of_result (get_queryset d table)) (fun queryset =>
  match queryset !! pk with
  | Some r => Http.Done (pk, r)
  | None => Http.Http404
  end))).

(** [obj.flags.important = not bool(obj.flags.important)] *)
Definition toggle (flag : string) (fs : gset string) : gset string :=
  if bool_decide (flag ∈ fs) then fs ∖ {[ flag ]} else fs ∪ {[ flag ]}.

(** [post]: the table after the request, and the URL of the redirect. *)
Definition post `{Builtins} (d : Dispatch) (table : Table)
  : Http.outcome (Table * string) :=
  Http.and_then (get_object d table) (fun '(pk, obj) =>
  let table' :=
    if bool_decide (is_Some (POST d !! "important-toggle"))
    then <[pk := Store.with_flags obj (toggle "important" (Store.flags obj))]> table
    else table in
  Http.Done (table', path d)).

(** The view as [get_context_data] finds it once [get_object] has set
    [self.object]. *)
Definition view_of (d : Dispatch) (obj : Store.row) : EmailView :=
  {| object := Store.message obj;
     request := asked d;
     cached_headers := header_cache d (id (Store.message obj)) |}.

(** [get]: Django's [DetailView.get] gets the object and the context;
    then the message is marked read and seen and saved.  The result is
    the message store, the table, and the context handed to the
    template.  When the object is not found or the context raises,
    nothing is saved. *)
Definition get `{Libraries} `{Builtins} (d : Dispatch) (table : Table)
    (store : list Py.message)
  : list Py.message * Table * Http.outcome Context :=
  match get_object d table with
  | Http.Done (pk, obj) =>
      match get_context_data (view_of d obj) store with
      | (store', Py.Ok context) =>
          (store',
           <[pk := Store.with_flags obj (Store.flags obj ∪ {[ "read" ]} ∪ {[ "seen" ]})]> table,
           Http.Done context)
      | (store', Py.Raise e) => (store', table, Http.Uncaught e)
      end
  | Http.Http404 => (store, table, Http.Http404)
  | Http.Uncaught e => (store, table, Http.Uncaught e)
  end.

(** ** More libraries, a tree, a table and requests to run the view on *)

Module Cases.

(** Libraries whose Premailer always fails. *)
Definition broken_premailer : Libraries :=
  {| Premailer_transform := fun _ => Py.Raise Py.OtherException;
     clean_html := Sample.clean;
     fromstring := Sample.parse;
     tostring := Sample.serialise;
     unicode_decode := Sample.decode;
     int := Sample.decimal |}.

(** Libraries whose cleaner fails with an error its handler does not
    name. *)
Definition strict_cleaner : Libraries :=
  {| Premailer_transform := fun body => Py.Ok body;
     clean_html := fun _ _ => Py.Raise Py.TypeError;
     fromstring := Sample.parse;
     tostring := Sample.serialise;
     unicode_decode := Sample.decode;
     int := Sample.decimal |}.

(** Libraries that share the decoder of [Sample.libraries] and nothing
    else. *)
Definition other_tools : Libraries :=
  {| Premailer_transform := fun _ => Py.Raise Py.OtherException;
     clean_html := fun _ _ => Py.Raise Py.TypeError;
     fromstring := fun _ => Py.Raise Py.LxmlError;
     tostring := fun _ => Py.Raise Py.ValueError;
     unicode_decode := Sample.decode;
     int := fun _ => Py.Raise Py.ValueError |}.

(** A plain-text message asked for with a parameter that is no
    integer. *)
Definition plain_view : EmailView :=
  Sample.view (Sample.message Sample.both_headers [Sample.text_part "hi"])
    {[ "imgDisplay" := "yes" ]} true true false.

Definition leaf (tag : string) (attrib : gmap string string) : Lxml.element :=
  {| Lxml.tag := tag; Lxml.attrib := attrib; Lxml.text := EmptyString;
     Lxml.tail := EmptyString; Lxml.children := [] |}.

Definition picture_attrib : gmap string string :=
  <[ "src" := "http://example.com/a.png" ]> {[ "alt" := "a" ]}.

(** A [div] with a paragraph holding an image, and a second image. *)
Definition page : Lxml.element :=
  {| Lxml.tag := "div"; Lxml.attrib := ∅; Lxml.text := EmptyString;
     Lxml.tail := EmptyString;
     Lxml.children :=
       [ {| Lxml.tag := "p"; Lxml.attrib := {[ "class" := "x" ]};
            Lxml.text := "hello"; Lxml.tail := EmptyString;
            Lxml.children := [leaf "img" picture_attrib] |};
         leaf "img" {[ "src" := "http://example.com/b.png" ]} ] |}.

(** The parameters of a typical header, as written. *)
Definition written : list Written.t :=
  [ {| Written.pad := " "; Written.key := "charset"; Written.quote := EmptyString;
       Written.value := "utf-8" |};
    {| Written.pad := " "; Written.key := "name"; Written.quote := "'";
       Written.value := "a b.txt" |} ].

(** A part without headers. *)
Definition bare : MimePart :=
  {| part_id := 4; parent := None; lft := 1; rght := 2; header_set := ∅;
     body_data := "hi" |}.

Definition hex_digit (c : ascii) : option Z :=
  if HeaderParams.in_range 48 57 c then Some (Z.of_nat (nat_of_ascii c) - 48)
  else if HeaderParams.in_range 97 102 c then Some (Z.of_nat (nat_of_ascii c) - 87)
  else None.

Fixpoint hex_digits (acc : Z) (s : string) : Py.result Z :=
  match s with
  | EmptyString => Py.Ok acc
  | String c s' =>
      match hex_digit c with
      | Some v => hex_digits (16 * acc + v) s'
      | None => Py.Raise Py.ValueError
      end
  end.

(** [int(text, 16)] on a run of digits and lower-case letters a to f. *)
Definition hex : Builtins :=
  {| int16 := fun s => match s with
                       | EmptyString => Py.Raise Py.ValueError
                       | _ => hex_digits 0 s
                       end |}.

(** A message stored under the primary key [pk], written [text] in
    base 16. *)
Definition stored (pk : Z) (text : string) (e : Email) (owner : string)
    (fs : gset string) : Store.row :=
  {| Store.message := {| id := pk; eid := text; received_date := received_date e;
                         inbox := "news@example.com"; top_headers := top_headers e;
                         parts := parts e |};
     Store.user := owner; Store.address := "news";
     Store.domain := "example.com"; Store.flags := fs |}.

(** Alice's inbox holds the alternative message (id 10), a message
    without From header (id 11) and a deleted one (id 12); Bob has a
    message of his own (id 13). *)
Definition table : gmap Z Store.row :=
  <[ 10 := stored 10 "a" Sample.alternative "alice" ∅ ]>
  (<[ 11 := stored 11 "b" Sample.anonymous "alice" ∅ ]>
  (<[ 12 := stored 12 "c" Sample.alternative "alice" {[ "deleted" ]} ]>
  {[ 13 := stored 13 "d" Sample.alternative "bob" ∅ ]})).

(** The table once message 10 is marked important, and once it is
    marked read and seen. *)
Definition starred : gmap Z Store.row :=
  <[ 10 := stored 10 "a" Sample.alternative "alice" {[ "important" ]} ]> table.

Definition shown : gmap Z Store.row :=
  <[ 10 := stored 10 "a" Sample.alternative "alice" ({[ "read" ]} ∪ {[ "seen" ]}) ]> table.

(** Alice asks for the message whose id is [text] in her inbox
    news@example.com, with the form [form]. *)
Definition asks (text : string) (form : gmap string string) : Dispatch :=
  {| viewer := "alice";
     kwargs := <[ "id" := text ]>
                 (<[ "inbox" := "news" ]> {[ "domain" := "example.com" ]});
     POST := form;
     path := "/inbox/news@example.com/email/";
     asked := request Sample.alternative_view;
     header_cache := fun _ => None |}.

Definition toggle_form : gmap string string := {[ "important-toggle" := "1" ]}.

(** The context of message 10 for Alice. *)
Definition context_10 : Context :=
  context_of (view_of (asks "a" ∅) (stored 10 "a" Sample.alternative "alice" ∅))
    ("Hello", "a@example.com")
    [60%N; 112%N; 62%N; 104%N; 105%N; 60%N; 47%N; 112%N; 62%N] "utf-8" false true.

End Cases.

(** * Properties *)

Example findall_ct :
  HeaderParams.findall " charset='iso-8859-1'; name=a b.txt;x=; y=';z=1"
  = [("charset", "iso-8859-1"); ("name", "a b.txt"); ("z", "1")].
Proof. reflexivity. Qed.

Example split1_ct :
  Py.split1 ";" "text/html; charset=utf-8; a=b" = ["text/html"; " charset=utf-8; a=b"]
  /\ Py.split1 ";" "text/plain" = ["text/plain"]
  /\ Py.split1 ";" EmptyString = [EmptyString].
Proof. repeat split; reflexivity. Qed.

Example classify_image :
  classify Sample.image_part
  = Some (Sample.kept Sample.image_part "latin-1",
          {| content_type := ["image/png"; " charset=latin-1"]; filename := "a.png" |})
  /\ classify Sample.container = None.
Proof. split; vm_compute; reflexivity. Qed.

Example dict_last_wins :
  Py.dict [("a", "1"); ("a", "2")] !! "a" = Some "2".
Proof. vm_compute. reflexivity. Qed.


(** ** The body selector *)

Section Selector.

Variable self : EmailView.

Lemma find_body_siblings (h p : Part) :
  parent h = parent p ->
  find_body self (Some h) (Some p) = Some (negb (Profile.prefer_html_email (userprofile (request self)))).
Proof.
  intros Heq. unfold find_body.
  rewrite bool_decide_eq_true_2 by exact Heq. reflexivity.
Qed.

Lemma find_body_apart (h p : Part) :
  parent h <> parent p ->
  find_body self (Some h) (Some p) = Some (negb (bool_decide (lft h < lft p))).
Proof.
  intros Hne. unfold find_body.
  rewrite bool_decide_eq_false_2 by exact Hne.
  destruct (bool_decide (lft h < lft p)); reflexivity.
Qed.

Lemma find_body_None (h p : option Part) :
  find_body self h p = None <-> h = None /\ p = None.
Proof.
  unfold find_body. destruct h as [h|], p as [p|]; try (split; [discriminate | intros [? ?]; discriminate]).
  - repeat case_bool_decide; split; try discriminate; intros [? ?]; discriminate.
  - split; auto.
Qed.

Lemma find_body_plain_exists (h p : option Part) :
  find_body self h p = Some true -> exists part, p = Some part.
Proof.
  destruct h, p; simpl; try discriminate; eauto.
Qed.

Lemma find_body_html_exists (h p : option Part) :
  find_body self h p = Some false -> exists part, h = Some part.
Proof.
  destruct h, p; simpl; try discriminate; eauto.
Qed.

(** C6.  An HTML part and a plain part with the same parent: the HTML
    part is the body ([Some false]) when [prefer_html_email] is set and
    the plain part ([Some true]) when it is not, and giving the two
    parts any other left and right values, their own exchanged among
    them, leaves the choice as it was. *)
Theorem siblings_follow_preference (h p : Part) :
  parent h = parent p ->
  (Profile.prefer_html_email (userprofile (request self)) = true -> find_body self (Some h) (Some p) = Some false)
  /\ (Profile.prefer_html_email (userprofile (request self)) = false -> find_body self (Some h) (Some p) = Some true)
  /\ find_body self (Some (with_position h (lft p) (rght p)))
                    (Some (with_position p (lft h) (rght h)))
     = find_body self (Some h) (Some p)
  /\ forall l1 r1 l2 r2,
       find_body self (Some (with_position h l1 r1)) (Some (with_position p l2 r2))
       = find_body self (Some h) (Some p).
Proof.
  intros Heq.
  assert (Hany : forall l1 r1 l2 r2,
             find_body self (Some (with_position h l1 r1)) (Some (with_position p l2 r2))
             = find_body self (Some h) (Some p)).
  { intros. rewrite !find_body_siblings; [reflexivity | exact Heq | exact Heq]. }
  rewrite (find_body_siblings h p Heq).
  repeat split.
  - intros ->. reflexivity.
  - intros ->. reflexivity.
  - rewrite Hany, find_body_siblings by exact Heq. reflexivity.
  - intros. rewrite Hany, find_body_siblings by exact Heq. reflexivity.
Qed.

(** C7.  An HTML part and a plain part with different parents: the one
    with the strictly smaller left value is the body, whatever the
    value of [prefer_html_email]. *)
Theorem strangers_follow_position (h p : Part) :
  parent h <> parent p ->
  (lft h < lft p -> find_body self (Some h) (Some p) = Some false)
  /\ (lft p < lft h -> find_body self (Some h) (Some p) = Some true).
Proof.
  intros Hne. rewrite (find_body_apart h p Hne). split; intros Hlt.
  - rewrite bool_decide_eq_true_2 by exact Hlt. reflexivity.
  - rewrite bool_decide_eq_false_2 by lia. reflexivity.
Qed.

(** C3, as the code has it.  An HTML part and a plain part with
    different parents and equal left values: the comparison
    [html.lft < plain.lft] fails, the last branch is taken and the
    plain part is the body. *)
Theorem equal_left_selects_plain (h p : Part) :
  parent h <> parent p ->
  lft h = lft p ->
  find_body self (Some h) (Some p) = Some true.
Proof.
  intros Hne Heq. rewrite (find_body_apart h p Hne).
  rewrite bool_decide_eq_false_2 by lia. reflexivity.
Qed.

End Selector.

(** ** The loop over the parts *)

Section Loop.

Lemma loop_body_invariant (ps : list MimePart) (st : Found) (part : MimePart) :
  part ∈ ps -> loop_invariant ps st -> loop_invariant ps (loop_body st part).
Proof.
  intros Hin (Hfound & Hhtml & Hplain). unfold loop_body.
  destruct (classify part) as [[p head]|] eqn:Hc; [| repeat split; assumption].
  assert (Hnew : (p, head) ∈ found st ++ [(p, head)]).
  { apply elem_of_app. right. apply list_elem_of_singleton. reflexivity. }
  assert (Hold : forall q, (exists hd, (q, hd) ∈ found st) ->
                           exists hd, (q, hd) ∈ found st ++ [(p, head)]).
  { intros q [hd Hq]. exists hd. apply elem_of_app. left. exact Hq. }
  assert (Hall : forall entry, entry ∈ found st ++ [(p, head)] ->
                               exists part0, part0 ∈ ps /\ classify part0 = Some entry).
  { intros entry [Hq | Hq]%elem_of_app.
    - apply Hfound, Hq.
    - apply list_elem_of_singleton in Hq as ->. exists part. split; assumption. }
  destruct (bool_decide (html st = None) && String.eqb _ "text/html").
  { split; [exact Hall |]. simpl. split.
    - intros q [= <-]. exists head. exact Hnew.
    - intros q Hq. apply Hold, Hplain, Hq. }
  destruct (bool_decide (plain st = None) && String.eqb _ "text/plain").
  { split; [exact Hall |]. simpl. split.
    - intros q Hq. apply Hold, Hhtml, Hq.
    - intros q [= <-]. exists head. exact Hnew. }
  split; [exact Hall |]. simpl. split.
  - intros q Hq. apply Hold, Hhtml, Hq.
  - intros q Hq. apply Hold, Hplain, Hq.
Qed.

Lemma foldl_loop_invariant (all ps : list MimePart) (st : Found) :
  (forall part, part ∈ ps -> part ∈ all) ->
  loop_invariant all st -> loop_invariant all (foldl loop_body st ps).
Proof.
  revert st. induction ps as [| part ps IH]; intros st Hsub Hinv; simpl.
  - exact Hinv.
  - apply IH.
    + intros q Hq. apply Hsub. right. exact Hq.
    + apply loop_body_invariant; [apply Hsub; left | exact Hinv].
Qed.

Lemma iterate_parts_invariant (ps : list MimePart) :
  loop_invariant ps (iterate_parts ps).
Proof.
  apply foldl_loop_invariant; [auto |].
  repeat split; simpl; intros ? H; [inversion H | discriminate | discriminate].
Qed.

(** What [classify] keeps is the part itself with the charset read from
    its parameters, utf-8 when they name none. *)
Lemma classify_charset (part : MimePart) (p : Part) (head : PartHead) :
  classify part = Some (p, head) ->
  row p = part /\ charset p = default "utf-8" (parameters part !! "charset").
Proof.
  unfold classify. destruct (_ || _); [discriminate |].
  intros [= <- <-]. split; reflexivity.
Qed.

(** Splitting never yields an empty list, so [content_type[0]] exists. *)
Lemma split1_head (sep : ascii) (s : string) :
  exists h t, Py.split1 sep s = h :: t.
Proof.
  induction s as [| c s (h & t & IH)]; simpl; [eauto |].
  destruct (Ascii.eqb c sep); [eauto |]. rewrite IH. eauto.
Qed.

End Loop.

(** ** The stages of [get_context_data] *)

Section Stages.

Context `{L : Libraries}.
Variable self : EmailView.

Lemma fallback_plain (p : Part) :
  body_data p <> EmptyString -> fallback (Some p) = (body_data p, charset p).
Proof.
  unfold fallback. destruct (body_data p); [congruence | reflexivity].
Qed.

Lemma fallback_empty (plain : option Part) :
  plain = None \/ (exists p, plain = Some p /\ body_data p = EmptyString) ->
  fallback plain = (EmptyString, "utf-8").
Proof.
  intros [-> | (p & -> & Hp)]; unfold fallback; [| rewrite Hp]; reflexivity.
Qed.

Lemma fallback_charset (plain : option Part) :
  (fallback plain).2 = "utf-8"
  \/ exists p, plain = Some p /\ (fallback plain).2 = charset p.
Proof.
  unfold fallback. destruct plain as [p|]; [| left; reflexivity].
  destruct (0 <? String.length (body_data p))%nat; [right; eauto | left; reflexivity].
Qed.

Lemma fallback_empty_body (plain : option Part) :
  (fallback plain).1 = EmptyString -> (fallback plain).2 = "utf-8".
Proof.
  unfold fallback. destruct plain as [p|]; [| reflexivity].
  destruct (body_data p) eqn:Hb; simpl; [reflexivity | discriminate].
Qed.

(** The raw body is always set: when [find_body] answers plain there is
    a plain part, when it answers HTML there is an HTML part. *)
Lemma set_raw_body_total (st : Found) :
  exists d, set_raw_body self st = Py.Ok d.
Proof.
  unfold set_raw_body. destruct (find_body self (html st) (plain st)) as [[|]|] eqn:Hf.
  - apply find_body_plain_exists in Hf as [p ->]. simpl. eauto.
  - apply find_body_html_exists in Hf as [p ->]. simpl. eauto.
  - destruct (found st) as [| [p head] [| ? ?]]; eauto.
Qed.

Lemma set_raw_body_mode (st : Found) (d : Draft.t) :
  set_raw_body self st = Py.Ok d ->
  Draft.plain_message d = false <-> find_body self (html st) (plain st) = Some false.
Proof.
  unfold set_raw_body. destruct (find_body self (html st) (plain st)) as [[|]|] eqn:Hf.
  - destruct (deref (plain st)); intros [= <-]; simpl; split; discriminate.
  - destruct (deref (html st)); intros [= <-]; simpl; split; reflexivity.
  - destruct (found st) as [| [p head] [| ? ?]]; intros [= <-]; simpl; split; discriminate.
Qed.

Lemma sanitize_plain (plain : option Part) (d : Draft.t) (m : list Py.message) :
  Draft.plain_message d = true -> sanitize plain d m = (m, Py.Ok d).
Proof. intros Hd. unfold sanitize. rewrite Hd. reflexivity. Qed.

Lemma sanitize_html (plain : option Part) (d : Draft.t) (m : list Py.message) :
  Draft.plain_message d = false ->
  sanitize plain d m =
    match clean_html cleaner (inlined (Draft.body d)) with
    | Py.Ok cleaned =>
        (m ++ inline_messages (Draft.body d),
         Py.Ok {| Draft.body := cleaned; Draft.charset := Draft.charset d;
                  Draft.plain_message := false |})
    | Py.Raise e =>
        if Py.LxmlError_or_ValueError e
        then (m ++ inline_messages (Draft.body d) ++ [(Py.ERROR, invalid_html_error)],
              Py.Ok {| Draft.body := (fallback plain).1;
                       Draft.charset := (fallback plain).2;
                       Draft.plain_message := true |})
        else (m ++ inline_messages (Draft.body d), Py.Raise e)
    end.
Proof.
  intros Hd. unfold sanitize, inlined, inline_messages. rewrite Hd.
  unfold Py.bind, Py.try_except, Py.lift, Py.add_message, Py.ret, Py.any_Exception.
  destruct (Premailer_transform (Draft.body d)) as [out | e0]; simpl.
  - rewrite app_nil_r.
    destruct (clean_html cleaner out) as [c | e]; [reflexivity |].
    destruct (Py.LxmlError_or_ValueError e); [| reflexivity].
    destruct (fallback plain). reflexivity.
  - destruct (clean_html cleaner (Draft.body d)) as [c | e]; [reflexivity |].
    destruct (Py.LxmlError_or_ValueError e); [| reflexivity].
    destruct (fallback plain). simpl. rewrite <- app_assoc. reflexivity.
Qed.

Lemma filter_images_shown (plain : option Part) (d : Draft.t) (m : list Py.message) :
  filter_images plain true d m = (m, Py.Ok d).
Proof. reflexivity. Qed.

(** The image step never touches the message store nor the mode. *)
Lemma filter_images_hidden (plain : option Part) (d : Draft.t) (m : list Py.message) :
  filter_images plain false d m =
    (m,
     match Py.and_then (fromstring (Draft.body d))
                       (fun tree => tostring (remove_sources tree)) with
     | Py.Ok out =>
         Py.Ok {| Draft.body := out; Draft.charset := Draft.charset d;
                  Draft.plain_message := Draft.plain_message d |}
     | Py.Raise e =>
         if Py.LxmlError_or_ValueError e
         then Py.Ok {| Draft.body := (fallback plain).1;
                       Draft.charset := (fallback plain).2;
                       Draft.plain_message := Draft.plain_message d |}
         else Py.Raise e
     end).
Proof.
  unfold filter_images, Py.bind, Py.try_except, Py.lift, Py.ret, Py.and_then.
  destruct (fromstring (Draft.body d)) as [tree | e]; simpl.
  - destruct (tostring (remove_sources tree)) as [out | e]; [reflexivity |].
    destruct (Py.LxmlError_or_ValueError e); [| reflexivity].
    destruct (fallback plain). reflexivity.
  - destruct (Py.LxmlError_or_ValueError e); [| reflexivity].
    destruct (fallback plain). reflexivity.
Qed.

(** [get_context_data] stage by stage. *)
Lemma get_context_data_stages (m : list Py.message) :
  get_context_data self m =
    match read_headers self with
    | Py.Raise e => (m, Py.Raise e)
    | Py.Ok headers =>
        match set_raw_body self (found_parts self) with
        | Py.Raise e => (m, Py.Raise e)
        | Py.Ok raw =>
            match sanitize (plain (found_parts self)) raw m with
            | (m1, Py.Raise e) => (m1, Py.Raise e)
            | (m1, Py.Ok cleaned) =>
                match image_decision self (Draft.plain_message cleaned) with
                | Py.Raise e => (m1, Py.Raise e)
                | Py.Ok (shown, ask) =>
                    match filter_images (plain (found_parts self)) shown cleaned m1 with
                    | (m2, Py.Raise e) => (m2, Py.Raise e)
                    | (m2, Py.Ok final) =>
                        (m2,
                         Py.and_then
                           (unicode_decode (Draft.body final) (Draft.charset final))
                           (fun text =>
                              Py.Ok (context_of self headers text (Draft.charset final)
                                       (Draft.plain_message final) ask)))
                    end
                end
            end
        end
    end.
Proof.
  unfold get_context_data, Py.bind, Py.lift, Py.ret, context_of.
  destruct (read_headers self) as [[subject sender] | e]; [| reflexivity].
  destruct (set_raw_body self (found_parts self)) as [raw | e]; [| reflexivity].
  destruct (sanitize (plain (found_parts self)) raw m) as [m1 [cleaned | e]]; [| reflexivity].
  destruct (image_decision self (Draft.plain_message cleaned)) as [[shown ask] | e];
    [| reflexivity].
  destruct (filter_images (plain (found_parts self)) shown cleaned m1) as [m2 [final | e]];
    [| reflexivity].
  destruct (unicode_decode (Draft.body final) (Draft.charset final)); reflexivity.
Qed.

Lemma read_headers_from (sender : string) :
  view_headers self !! "From" = Some sender ->
  read_headers self
  = Py.Ok (default "(No subject)" (view_headers self !! "Subject"), sender).
Proof.
  intros H. unfold read_headers, Py.getitem, Py.and_then. rewrite H. reflexivity.
Qed.


Lemma image_decision_plain : image_decision self true = Py.Ok (true, false).
Proof. reflexivity. Qed.

End Stages.

(** ** The render without a viable body, and the top-level headers *)

Section Render.

Context `{L : Libraries}.
Variable self : EmailView.

Lemma get_context_data_inv (m m' : list Py.message) (ctx : Context) :
  get_context_data self m = (m', Py.Ok ctx) ->
  exists headers raw m1 cleaned shown ask final text,
    read_headers self = Py.Ok headers
    /\ set_raw_body self (found_parts self) = Py.Ok raw
    /\ sanitize (plain (found_parts self)) raw m = (m1, Py.Ok cleaned)
    /\ image_decision self (Draft.plain_message cleaned) = Py.Ok (shown, ask)
    /\ filter_images (plain (found_parts self)) shown cleaned m1 = (m', Py.Ok final)
    /\ unicode_decode (Draft.body final) (Draft.charset final) = Py.Ok text
    /\ ctx = context_of self headers text (Draft.charset final)
               (Draft.plain_message final) ask.
Proof.
  rewrite get_context_data_stages.
  destruct (read_headers self) as [headers | e] eqn:Hh; [| discriminate].
  destruct (set_raw_body self (found_parts self)) as [raw | e] eqn:Hr; [| discriminate].
  destruct (sanitize (plain (found_parts self)) raw m) as [m1 [cleaned | e]] eqn:Hs;
    [| discriminate].
  destruct (image_decision self (Draft.plain_message cleaned)) as [[shown ask] | e] eqn:Hi;
    [| discriminate].
  destruct (filter_images (plain (found_parts self)) shown cleaned m1)
    as [m2 [final | e]] eqn:Hf; [| discriminate].
  destruct (unicode_decode (Draft.body final) (Draft.charset final)) as [text | e] eqn:Hd;
    simpl; [| discriminate].
  intros [= <- <-]. exists headers, raw, m1, cleaned, shown, ask, final, text.
  repeat split; assumption || reflexivity.
Qed.

(** A render that stays in plain-text mode from the raw body on. *)
Lemma get_context_data_plain (headers : string * string) (d : Draft.t)
    (m : list Py.message) :
  read_headers self = Py.Ok headers ->
  set_raw_body self (found_parts self) = Py.Ok d ->
  Draft.plain_message d = true ->
  get_context_data self m =
    (m, Py.and_then (unicode_decode (Draft.body d) (Draft.charset d))
          (fun text => Py.Ok (context_of self headers text (Draft.charset d) true false))).
Proof.
  intros Hh Hraw Hd. rewrite get_context_data_stages, Hh, Hraw.
  rewrite sanitize_plain by exact Hd. rewrite Hd. simpl. rewrite Hd. reflexivity.
Qed.

(** C8.  When [find_body] answers [None]: with exactly one part kept by
    the loop the raw body is that part's bytes as they are, with any
    other number it is empty; the mode is plain either way, nothing is
    cleaned or filtered and no message is added, and the body returned
    is the decoding of that raw body. *)
Theorem no_viable_body (sender : string) (m : list Py.message) :
  view_headers self !! "From" = Some sender ->
  find_body self (html (found_parts self)) (plain (found_parts self)) = None ->
  let headers := (default "(No subject)" (view_headers self !! "Subject"), sender) in
  (forall part head,
     found (found_parts self) = [(part, head)] ->
     set_raw_body self (found_parts self)
     = Py.Ok {| Draft.body := body_data part; Draft.charset := charset part;
                Draft.plain_message := true |}
     /\ get_context_data self m
        = (m, Py.and_then (unicode_decode (body_data part) (charset part))
                (fun text =>
                   Py.Ok (context_of self headers text (charset part) true false))))
  /\ (length (found (found_parts self)) <> 1%nat ->
      set_raw_body self (found_parts self)
      = Py.Ok {| Draft.body := EmptyString; Draft.charset := "utf-8";
                 Draft.plain_message := true |}
      /\ get_context_data self m
         = (m, Py.and_then (unicode_decode EmptyString "utf-8")
                 (fun text => Py.Ok (context_of self headers text "utf-8" true false)))).
Proof.
  intros Hfrom Hnone headers. apply read_headers_from in Hfrom. split.
  - intros part head Hone.
    assert (Hraw : set_raw_body self (found_parts self)
                   = Py.Ok {| Draft.body := body_data part; Draft.charset := charset part;
                              Draft.plain_message := true |}).
    { unfold set_raw_body. rewrite Hnone, Hone. reflexivity. }
    split; [exact Hraw |].
    rewrite (get_context_data_plain _ _ m Hfrom Hraw eq_refl). reflexivity.
  - intros Hlen.
    assert (Hraw : set_raw_body self (found_parts self)
                   = Py.Ok {| Draft.body := EmptyString; Draft.charset := "utf-8";
                              Draft.plain_message := true |}).
    { unfold set_raw_body. rewrite Hnone.
      destruct (found (found_parts self)) as [| [p head] [| ? ?]];
        [reflexivity | | reflexivity].
      exfalso. apply Hlen. reflexivity. }
    split; [exact Hraw |].
    rewrite (get_context_data_plain _ _ m Hfrom Hraw eq_refl). reflexivity.
Qed.


End Render.

(** ** Charsets *)

Section Charsets.

Context `{L : Libraries}.
Variable self : EmailView.

Lemma kept_charset_declared (p : Part) (head : PartHead) :
  (p, head) ∈ found (found_parts self) ->
  charset p ∈ "utf-8" :: declared_charsets self.
Proof.
  intros Hin. right. unfold declared_charsets.
  apply (list_elem_of_fmap_2 (fun entry : Part * PartHead => charset entry.1)) in Hin.
  exact Hin.
Qed.

Lemma html_is_kept (p : Part) :
  html (found_parts self) = Some p -> exists head, (p, head) ∈ found (found_parts self).
Proof.
  destruct (iterate_parts_invariant (parts (object self))) as (_ & H & _). apply H.
Qed.

Lemma plain_is_kept (p : Part) :
  plain (found_parts self) = Some p -> exists head, (p, head) ∈ found (found_parts self).
Proof.
  destruct (iterate_parts_invariant (parts (object self))) as (_ & _ & H). apply H.
Qed.

Lemma fallback_charset_declared :
  (fallback (plain (found_parts self))).2 ∈ "utf-8" :: declared_charsets self.
Proof.
  destruct (fallback_charset (plain (found_parts self))) as [-> | (p & Hp & ->)].
  - left.
  - destruct (plain_is_kept p Hp) as [head Hin]. exact (kept_charset_declared p head Hin).
Qed.

Lemma raw_charset_declared (raw : Draft.t) :
  set_raw_body self (found_parts self) = Py.Ok raw ->
  Draft.charset raw ∈ "utf-8" :: declared_charsets self.
Proof.
  unfold set_raw_body.
  destruct (find_body self (html (found_parts self)) (plain (found_parts self)))
    as [[|]|] eqn:Hf.
  - destruct (plain (found_parts self)) as [p|] eqn:Hp; simpl; [| discriminate].
    intros [= <-]. simpl. destruct (plain_is_kept p Hp) as [head Hin].
    exact (kept_charset_declared p head Hin).
  - destruct (html (found_parts self)) as [p|] eqn:Hp; simpl; [| discriminate].
    intros [= <-]. simpl. destruct (html_is_kept p Hp) as [head Hin].
    exact (kept_charset_declared p head Hin).
  - destruct (found (found_parts self)) as [| [p head] [| ? ?]] eqn:Hfound;
      intros [= <-]; simpl; try left.
    apply (kept_charset_declared p head). rewrite Hfound. left.
Qed.

Lemma sanitize_charset (plain : option Part) (d d' : Draft.t) (m m' : list Py.message) :
  sanitize plain d m = (m', Py.Ok d') ->
  Draft.charset d' = Draft.charset d \/ Draft.charset d' = (fallback plain).2.
Proof.
  destruct (Draft.plain_message d) eqn:Hd.
  - rewrite sanitize_plain by exact Hd. intros [= _ <-]. left. reflexivity.
  - rewrite sanitize_html by exact Hd.
    destruct (clean_html cleaner (inlined (Draft.body d))) as [c | e].
    + intros [= _ <-]. left. reflexivity.
    + destruct (Py.LxmlError_or_ValueError e); [| discriminate].
      intros [= _ <-]. right. reflexivity.
Qed.

Lemma filter_images_charset (plain : option Part) (shown : bool) (d d' : Draft.t)
    (m m' : list Py.message) :
  filter_images plain shown d m = (m', Py.Ok d') ->
  Draft.charset d' = Draft.charset d \/ Draft.charset d' = (fallback plain).2.
Proof.
  destruct shown.
  - rewrite filter_images_shown. intros [= _ <-]. left. reflexivity.
  - rewrite filter_images_hidden.
    destruct (Py.and_then _ _) as [out | e].
    + intros [= _ <-]. left. reflexivity.
    + destruct (Py.LxmlError_or_ValueError e); [| discriminate].
      intros [= _ <-]. right. reflexivity.
Qed.

(** Every declared charset is what line 147 read from the parameters of
    some part of the message. *)
Lemma declared_charset_grabbed (c : string) :
  c ∈ "utf-8" :: declared_charsets self ->
  c = "utf-8"
  \/ exists part, part ∈ parts (object self)
                  /\ c = default "utf-8" (parameters part !! "charset").
Proof.
  intros [-> | Hin]%elem_of_cons; [left; reflexivity | right].
  unfold declared_charsets in Hin.
  apply list_elem_of_fmap in Hin as ([p head] & -> & Hin).
  destruct (iterate_parts_invariant (parts (object self))) as (Hfound & _ & _).
  destruct (Hfound _ Hin) as (part & Hpart & Hc).
  exists part. split; [exact Hpart |].
  apply classify_charset in Hc as [_ Hc]. exact Hc.
Qed.

End Charsets.

(** ** Cleaning, the image policy and the whole render *)

Section Html.

Context `{L : Libraries}.
Variable self : EmailView.

Lemma set_raw_body_html (h : Part) :
  find_body self (html (found_parts self)) (plain (found_parts self)) = Some false ->
  html (found_parts self) = Some h ->
  set_raw_body self (found_parts self)
  = Py.Ok {| Draft.body := body_data h; Draft.charset := charset h;
             Draft.plain_message := false |}.
Proof.
  intros Hf Hh. unfold set_raw_body. rewrite Hf, Hh. reflexivity.
Qed.

Lemma emitted_app (msg : Py.message) (a b : list Py.message) :
  Py.emitted msg (a ++ b) = (Py.emitted msg a + Py.emitted msg b)%nat.
Proof.
  unfold Py.emitted. rewrite List.filter_app, length_app. reflexivity.
Qed.

Lemma inline_messages_no_error (body : string) :
  Py.emitted (Py.ERROR, invalid_html_error) (inline_messages body) = 0%nat.
Proof.
  unfold inline_messages. destruct (Premailer_transform body); reflexivity.
Qed.

(** C4, as the code has it.  The HTML part is the body and the cleaner
    raises an [LxmlError] or a [ValueError] on it.  Then the body and charset
    become those of the plain part when there is one with a body that
    is not empty, the empty string and utf-8 otherwise; the mode is
    plain, the image step is passed over, and the store receives the
    error message once, after the warning of the Premailer step if
    there was one.  The body returned is the decoding of the fallback
    body with the fallback charset. *)
Theorem cleaning_failure_falls_back (sender : string) (h : Part) (e : Py.exn)
    (m : list Py.message) :
  view_headers self !! "From" = Some sender ->
  find_body self (html (found_parts self)) (plain (found_parts self)) = Some false ->
  html (found_parts self) = Some h ->
  clean_html cleaner (inlined (body_data h)) = Py.Raise e ->
  Py.LxmlError_or_ValueError e = true ->
  let headers := (default "(No subject)" (view_headers self !! "Subject"), sender) in
  let fb := fallback (plain (found_parts self)) in
  let added := inline_messages (body_data h) ++ [(Py.ERROR, invalid_html_error)] in
  get_context_data self m
  = (m ++ added,
     Py.and_then (unicode_decode fb.1 fb.2)
       (fun text => Py.Ok (context_of self headers text fb.2 true false)))
  /\ Py.emitted (Py.ERROR, invalid_html_error) added = 1%nat
  /\ (forall p, plain (found_parts self) = Some p -> body_data p <> EmptyString ->
                fb = (body_data p, charset p))
  /\ (plain (found_parts self) = None
      \/ (exists p, plain (found_parts self) = Some p /\ body_data p = EmptyString) ->
      fb = (EmptyString, "utf-8")).
Proof.
  intros Hfrom Hfind Hhtml Hclean Hcaught headers fb added.
  repeat split.
  - rewrite get_context_data_stages.
    rewrite (read_headers_from self sender Hfrom).
    rewrite (set_raw_body_html h Hfind Hhtml).
    rewrite sanitize_html by reflexivity. simpl.
    rewrite Hclean, Hcaught. simpl. reflexivity.
  - unfold added. rewrite emitted_app, inline_messages_no_error. reflexivity.
  - intros p Hp Hbody. unfold fb. rewrite Hp. apply fallback_plain, Hbody.
  - intros Hnone. apply fallback_empty, Hnone.
Qed.

(** C2, what the code does.  The HTML part is the body, the cleaner
    accepts it, images are not to be shown, and parsing the cleaned
    body for the image step raises an [LxmlError] or a [ValueError].
    The body and charset fall back as after a cleaning failure, but the
    mode stays HTML and the store receives no error message: only the
    warning of the Premailer step, if there was one. *)
Theorem image_failure_keeps_html_mode (sender : string) (h : Part)
    (cleaned : string) (ask : bool) (e : Py.exn) (m : list Py.message) :
  view_headers self !! "From" = Some sender ->
  find_body self (html (found_parts self)) (plain (found_parts self)) = Some false ->
  html (found_parts self) = Some h ->
  clean_html cleaner (inlined (body_data h)) = Py.Ok cleaned ->
  image_decision self false = Py.Ok (false, ask) ->
  Py.and_then (fromstring cleaned) (fun tree => tostring (remove_sources tree))
  = Py.Raise e ->
  Py.LxmlError_or_ValueError e = true ->
  let headers := (default "(No subject)" (view_headers self !! "Subject"), sender) in
  let fb := fallback (plain (found_parts self)) in
  get_context_data self m
  = (m ++ inline_messages (body_data h),
     Py.and_then (unicode_decode fb.1 fb.2)
       (fun text => Py.Ok (context_of self headers text fb.2 false ask)))
  /\ Py.emitted (Py.ERROR, invalid_html_error) (inline_messages (body_data h)) = 0%nat.
Proof.
  intros Hfrom Hfind Hhtml Hclean Hdecision Hparse Hcaught headers fb.
  split; [| apply inline_messages_no_error].
  rewrite get_context_data_stages.
  rewrite (read_headers_from self sender Hfrom).
  rewrite (set_raw_body_html h Hfind Hhtml).
  rewrite sanitize_html by reflexivity.
  cbn [Draft.body Draft.charset Draft.plain_message].
  rewrite Hclean.
  cbn [Draft.body Draft.charset Draft.plain_message].
  rewrite Hdecision, filter_images_hidden.
  cbn [Draft.body Draft.charset Draft.plain_message].
  rewrite Hparse, Hcaught. reflexivity.
Qed.


End Html.

Section Completion.

Context `{L : Libraries}.
Variable self : EmailView.

(** C10.  The raw body of a message without viable body is empty with
    charset utf-8 unless exactly one part was kept, and then it has that
    part's charset, the one read from its parameters with utf-8 as
    default; the handlers of the cleaning step and of the image step
    leave the empty body with charset utf-8 when there is no plain part
    with a body that is not empty; the charset of every context
    returned is utf-8 or the charset so read for some part of the
    message; and in each of these four cases the render itself returns
    the decoding of the body named with the charset named, and that
    charset in the context: utf-8 for the three empty bodies, the single
    part's charset for the single part. *)
Theorem charset_always_defined :
  (find_body self (html (found_parts self)) (plain (found_parts self)) = None ->
   (length (found (found_parts self)) <> 1%nat ->
    set_raw_body self (found_parts self)
    = Py.Ok {| Draft.body := EmptyString; Draft.charset := "utf-8";
               Draft.plain_message := true |})
   /\ (forall part head,
         found (found_parts self) = [(part, head)] ->
         set_raw_body self (found_parts self)
         = Py.Ok {| Draft.body := body_data part; Draft.charset := charset part;
                    Draft.plain_message := true |}
         /\ row part ∈ parts (object self)
         /\ charset part = default "utf-8" (parameters (row part) !! "charset")))
  /\ (forall (alt : option Part) d m e,
        alt = None \/ (exists p, alt = Some p /\ body_data p = EmptyString) ->
        Draft.plain_message d = false ->
        clean_html cleaner (inlined (Draft.body d)) = Py.Raise e ->
        Py.LxmlError_or_ValueError e = true ->
        (sanitize alt d m).2
        = Py.Ok {| Draft.body := EmptyString; Draft.charset := "utf-8";
                   Draft.plain_message := true |})
  /\ (forall (alt : option Part) d m e,
        alt = None \/ (exists p, alt = Some p /\ body_data p = EmptyString) ->
        Py.and_then (fromstring (Draft.body d))
                    (fun tree => tostring (remove_sources tree)) = Py.Raise e ->
        Py.LxmlError_or_ValueError e = true ->
        (filter_images alt false d m).2
        = Py.Ok {| Draft.body := EmptyString; Draft.charset := "utf-8";
                   Draft.plain_message := Draft.plain_message d |})
  /\ (forall m m' ctx,
        get_context_data self m = (m', Py.Ok ctx) ->
        EmailDict.charset (email ctx) = "utf-8"
        \/ exists part, part ∈ parts (object self)
                        /\ EmailDict.charset (email ctx)
                           = default "utf-8" (parameters part !! "charset"))
  /\ (forall sender m,
        view_headers self !! "From" = Some sender ->
        find_body self (html (found_parts self)) (plain (found_parts self)) = None ->
        length (found (found_parts self)) <> 1%nat ->
        get_context_data self m
        = (m, Py.and_then (unicode_decode EmptyString "utf-8")
                (fun text =>
                   Py.Ok (context_of self
                            (default "(No subject)" (view_headers self !! "Subject"),
                             sender)
                            text "utf-8" true false))))
  /\ (forall sender m part head,
        view_headers self !! "From" = Some sender ->
        find_body self (html (found_parts self)) (plain (found_parts self)) = None ->
        found (found_parts self) = [(part, head)] ->
        get_context_data self m
        = (m, Py.and_then (unicode_decode (body_data part) (charset part))
                (fun text =>
                   Py.Ok (context_of self
                            (default "(No subject)" (view_headers self !! "Subject"),
                             sender)
                            text (charset part) true false))))
  /\ (forall sender m h e,
        view_headers self !! "From" = Some sender ->
        find_body self (html (found_parts self)) (plain (found_parts self)) = Some false ->
        html (found_parts self) = Some h ->
        clean_html cleaner (inlined (body_data h)) = Py.Raise e ->
        Py.LxmlError_or_ValueError e = true ->
        plain (found_parts self) = None
        \/ (exists p, plain (found_parts self) = Some p /\ body_data p = EmptyString) ->
        get_context_data self m
        = (m ++ inline_messages (body_data h) ++ [(Py.ERROR, invalid_html_error)],
           Py.and_then (unicode_decode EmptyString "utf-8")
             (fun text =>
                Py.Ok (context_of self
                         (default "(No subject)" (view_headers self !! "Subject"),
                          sender)
                         text "utf-8" true false))))
  /\ (forall sender m h cleaned ask e,
        view_headers self !! "From" = Some sender ->
        find_body self (html (found_parts self)) (plain (found_parts self)) = Some false ->
        html (found_parts self) = Some h ->
        clean_html cleaner (inlined (body_data h)) = Py.Ok cleaned ->
        image_decision self false = Py.Ok (false, ask) ->
        Py.and_then (fromstring cleaned) (fun tree => tostring (remove_sources tree))
        = Py.Raise e ->
        Py.LxmlError_or_ValueError e = true ->
        plain (found_parts self) = None
        \/ (exists p, plain (found_parts self) = Some p /\ body_data p = EmptyString) ->
        get_context_data self m
        = (m ++ inline_messages (body_data h),
           Py.and_then (unicode_decode EmptyString "utf-8")
             (fun text =>
                Py.Ok (context_of self
                         (default "(No subject)" (view_headers self !! "Subject"),
                          sender)
                         text "utf-8" false ask)))).
Proof.
  split; [| split; [| split; [| split; [| split; [| split; [| split]]]]]].
  - intros Hnone. split.
    + intros Hlen. unfold set_raw_body. rewrite Hnone.
      destruct (found (found_parts self)) as [| [p head] [| ? ?]];
        [reflexivity | | reflexivity].
      exfalso. apply Hlen. reflexivity.
    + intros part head Hone. split.
      { unfold set_raw_body. rewrite Hnone, Hone. reflexivity. }
      destruct (iterate_parts_invariant (parts (object self))) as (Hfound & _ & _).
      destruct (Hfound (part, head)) as (r & Hr & Hc).
      { unfold found_parts in Hone. rewrite Hone. left. }
      apply classify_charset in Hc as [Hrow Hc]. rewrite Hrow. split; assumption.
  - intros alt d m e Halt Hd Hclean Hcaught.
    rewrite sanitize_html by exact Hd. rewrite Hclean, Hcaught.
    rewrite (fallback_empty alt Halt). reflexivity.
  - intros alt d m e Halt Hparse Hcaught.
    rewrite filter_images_hidden. cbn [snd]. rewrite Hparse, Hcaught.
    rewrite (fallback_empty alt Halt). reflexivity.
  - intros m m' ctx Hctx.
    apply get_context_data_inv in Hctx
      as (headers & raw & m1 & cleaned & shown & ask & final & text
          & _ & Hraw & Hs & _ & Hf & _ & ->).
    apply declared_charset_grabbed. simpl.
    pose proof (raw_charset_declared self raw Hraw) as Hr.
    pose proof (fallback_charset_declared self) as Hfb.
    apply sanitize_charset in Hs. apply filter_images_charset in Hf.
    destruct Hf as [-> | ->]; [| exact Hfb].
    destruct Hs as [-> | ->]; [exact Hr | exact Hfb].
  - intros sender m Hfrom Hnone Hlen. apply read_headers_from in Hfrom.
    assert (Hraw : set_raw_body self (found_parts self)
                   = Py.Ok {| Draft.body := EmptyString; Draft.charset := "utf-8";
                              Draft.plain_message := true |}).
    { unfold set_raw_body. rewrite Hnone.
      destruct (found (found_parts self)) as [| [p head] [| ? ?]];
        [reflexivity | | reflexivity].
      exfalso. apply Hlen. reflexivity. }
    rewrite (get_context_data_plain self _ _ m Hfrom Hraw eq_refl). reflexivity.
  - intros sender m part head Hfrom Hnone Hone. apply read_headers_from in Hfrom.
    assert (Hraw : set_raw_body self (found_parts self)
                   = Py.Ok {| Draft.body := body_data part; Draft.charset := charset part;
                              Draft.plain_message := true |}).
    { unfold set_raw_body. rewrite Hnone, Hone. reflexivity. }
    rewrite (get_context_data_plain self _ _ m Hfrom Hraw eq_refl). reflexivity.
  - intros sender m h e Hfrom Hfind Hhtml Hclean Hcaught Halt.
    rewrite get_context_data_stages, (read_headers_from self sender Hfrom).
    rewrite (set_raw_body_html self h Hfind Hhtml).
    rewrite sanitize_html by reflexivity.
    cbn [Draft.body Draft.charset Draft.plain_message].
    rewrite Hclean, Hcaught, (fallback_empty _ Halt). reflexivity.
  - intros sender m h cleaned ask e Hfrom Hfind Hhtml Hclean Hdecision Hparse
      Hcaught Halt.
    rewrite get_context_data_stages, (read_headers_from self sender Hfrom).
    rewrite (set_raw_body_html self h Hfind Hhtml).
    rewrite sanitize_html by reflexivity.
    cbn [Draft.body Draft.charset Draft.plain_message].
    rewrite Hclean.
    cbn [Draft.body Draft.charset Draft.plain_message].
    rewrite Hdecision, filter_images_hidden.
    cbn [Draft.body Draft.charset Draft.plain_message].
    rewrite Hparse, Hcaught, (fallback_empty _ Halt). reflexivity.
Qed.

Lemma image_decision_total (plain_mode : bool) :
  (forall text, GET (request self) !! "imgDisplay" = Some text ->
                exists n, int text = Py.Ok n) ->
  exists shown ask, image_decision self plain_mode = Py.Ok (shown, ask).
Proof.
  intros Hint. unfold image_decision. destruct plain_mode; [eauto |].
  unfold one_shot_override.
  destruct (GET (request self) !! "imgDisplay") as [text |] eqn:Hget; simpl.
  - destruct (Hint text eq_refl) as [n ->]. simpl.
    destruct (n =? 1); [eauto |]. destruct (Profile.ask_images _); eauto.
  - destruct (Profile.ask_images _); eauto.
Qed.

(** C1, as the code has it.  The render returns a context, and with it
    a body, when the headers have a From entry; the parameter
    [imgDisplay] reads as an integer if it is there; if the HTML part is
    selected, the cleaner raises nothing but [LxmlError] or [ValueError]
    on it, and parsing and serialising raise nothing but these on what
    the cleaner made of it; and decoding succeeds, on any bytes, with
    utf-8 and with the charsets the kept parts declare. *)
Theorem render_completes (m : list Py.message) :
  is_Some (view_headers self !! "From") ->
  (forall text, GET (request self) !! "imgDisplay" = Some text ->
                exists n, int text = Py.Ok n) ->
  (forall h e,
      find_body self (html (found_parts self)) (plain (found_parts self)) = Some false ->
      html (found_parts self) = Some h ->
      clean_html cleaner (inlined (body_data h)) = Py.Raise e ->
      Py.LxmlError_or_ValueError e = true) ->
  (forall h cleaned e,
      find_body self (html (found_parts self)) (plain (found_parts self)) = Some false ->
      html (found_parts self) = Some h ->
      clean_html cleaner (inlined (body_data h)) = Py.Ok cleaned ->
      Py.and_then (fromstring cleaned) (fun tree => tostring (remove_sources tree))
      = Py.Raise e ->
      Py.LxmlError_or_ValueError e = true) ->
  (forall c, c ∈ "utf-8" :: declared_charsets self ->
             forall body, exists text, unicode_decode body c = Py.Ok text) ->
  exists m' ctx, get_context_data self m = (m', Py.Ok ctx).
Proof.
  intros [sender Hfrom] Hint Hclean Himage Hdecode.
  rewrite get_context_data_stages, (read_headers_from self sender Hfrom).
  destruct (set_raw_body_total self (found_parts self)) as [raw Hraw]. rewrite Hraw.
  pose proof (raw_charset_declared self raw Hraw) as Hr.
  pose proof (fallback_charset_declared self) as Hfb.
  assert (Hs : exists m1 cleaned,
             sanitize (plain (found_parts self)) raw m = (m1, Py.Ok cleaned)
             /\ (Draft.plain_message cleaned = true
                 \/ exists h c,
                      find_body self (html (found_parts self)) (plain (found_parts self))
                      = Some false
                      /\ html (found_parts self) = Some h
                      /\ clean_html cleaner (inlined (body_data h)) = Py.Ok c
                      /\ Draft.body cleaned = c)).
  { destruct (Draft.plain_message raw) eqn:Hmode.
    - rewrite sanitize_plain by exact Hmode. eexists _, _.
      split; [reflexivity | left; exact Hmode].
    - pose proof (proj1 (set_raw_body_mode self _ _ Hraw) Hmode) as Hfind.
      destruct (find_body_html_exists self _ _ Hfind) as [h Hh].
      rewrite (set_raw_body_html self h Hfind Hh) in Hraw. injection Hraw as <-.
      rewrite sanitize_html by reflexivity.
      cbn [Draft.body Draft.charset Draft.plain_message].
      destruct (clean_html cleaner (inlined (body_data h))) as [c | e] eqn:Hc.
      + eexists _, _. split; [reflexivity |]. right. exists h, c.
        repeat split; assumption || reflexivity.
      + rewrite (Hclean h e Hfind Hh Hc). eexists _, _.
        split; [reflexivity | left; reflexivity]. }
  destruct Hs as (m1 & cleaned & Hs & Hcases).
  rewrite Hs. apply sanitize_charset in Hs.
  destruct (image_decision_total (Draft.plain_message cleaned) Hint)
    as (shown & ask & Hi).
  rewrite Hi.
  assert (Hf : exists final,
             filter_images (plain (found_parts self)) shown cleaned m1
             = (m1, Py.Ok final)).
  { destruct shown; [rewrite filter_images_shown; eauto |].
    rewrite filter_images_hidden.
    destruct (Py.and_then (fromstring (Draft.body cleaned)) _) as [out | e] eqn:Hp;
      [eauto |].
    destruct Hcases as [Hplain | (h & c & Hfind & Hh & Hc & Hbody)].
    - rewrite Hplain in Hi. discriminate.
    - rewrite Hbody in Hp. rewrite (Himage h c e Hfind Hh Hc Hp). eauto. }
  destruct Hf as (final & Hf).
  rewrite Hf. apply filter_images_charset in Hf.
  assert (Hc : Draft.charset final ∈ "utf-8" :: declared_charsets self).
  { destruct Hf as [-> | ->]; [| exact Hfb].
    destruct Hs as [-> | ->]; [exact Hr | exact Hfb]. }
  destruct (Hdecode _ Hc (Draft.body final)) as [text ->]. simpl. eauto.
Qed.

End Completion.

(** ** The view run on the stored messages *)

(** C1 fails as stated: a message without a From header makes the
    render raise [KeyError]. *)
Lemma render_raises_without_from :
  view_headers Sample.anonymous_view !! "From" = None
  /\ @get_context_data Sample.libraries Sample.anonymous_view []
     = ([], Py.Raise Py.KeyError).
Proof. split; vm_compute; reflexivity. Qed.

(** So does a parameter [imgDisplay] that is no integer, on an HTML
    body, and a charset the decoder does not know. *)
Example render_raises_on_bad_parameter :
  @get_context_data Sample.libraries (Sample.queried_view "yes") []
  = ([], Py.Raise Py.ValueError).
Proof. vm_compute. reflexivity. Qed.

Example render_raises_on_unknown_charset :
  @get_context_data Sample.libraries
    (Sample.view
       (Sample.message Sample.both_headers
          [{| part_id := 1; parent := None; lft := 1; rght := 2;
              header_set := {[ "Content-Type" := "text/plain; charset=x-unknown" ]};
              body_data := "hi" |}])
       ∅ true true false) []
  = ([], Py.Raise Py.LookupError).
Proof. vm_compute. reflexivity. Qed.

Lemma render_completes_witness :
  is_Some (view_headers (Sample.queried_view "1") !! "From")
  /\ exists m' ctx,
       @get_context_data Sample.libraries (Sample.queried_view "1") [] = (m', Py.Ok ctx).
Proof.
  assert (Hfrom : is_Some (view_headers (Sample.queried_view "1") !! "From")).
  { exists "a@example.com". vm_compute. reflexivity. }
  split; [exact Hfrom |].
  apply (@render_completes Sample.libraries (Sample.queried_view "1") [] Hfrom).
  - intros text Hget. vm_compute in Hget. injection Hget as <-.
    exists 1. reflexivity.
  - intros h e _ _. cbn. unfold Sample.clean.
    destruct (Py.startswith (body_data h) "<"); intros [= <-]. reflexivity.
  - intros h cleaned e _ _ _. cbn. unfold Sample.parse.
    destruct (Py.startswith cleaned "<?xml"); [intros [= <-]; reflexivity |].
    destruct (Py.startswith cleaned "<"); [discriminate |].
    intros [= <-]. reflexivity.
  - intros c Hc body.
    assert (Hall : "utf-8" :: declared_charsets (Sample.queried_view "1")
                   = ["utf-8"; "us-ascii"; "utf-8"]) by (vm_compute; reflexivity).
    rewrite Hall in Hc.
    repeat (apply elem_of_cons in Hc as [-> | Hc]; [eexists; reflexivity |]).
    apply elem_of_nil in Hc. destruct Hc.
Defined.

(** C2 at the message whose cleaned HTML the image step cannot parse:
    the plain text [hi] is returned in HTML mode and the store stays
    empty. *)
Lemma image_failure_keeps_html_mode_witness :
  find_body Sample.declared_view
    (html (found_parts Sample.declared_view)) (plain (found_parts Sample.declared_view))
  = Some false
  /\ @get_context_data Sample.libraries Sample.declared_view []
     = ([], Py.Ok (context_of Sample.declared_view ("Hello", "a@example.com")
                     [104%N; 105%N] "us-ascii" false true)).
Proof.
  assert (Hfind : find_body Sample.declared_view
                    (html (found_parts Sample.declared_view))
                    (plain (found_parts Sample.declared_view)) = Some false)
    by (vm_compute; reflexivity).
  split; [exact Hfind |].
  assert (Hfrom : view_headers Sample.declared_view !! "From" = Some "a@example.com")
    by (vm_compute; reflexivity).
  assert (Hhtml : html (found_parts Sample.declared_view)
                  = Some (Sample.kept
                            (Sample.html_part "<?xml version=1.0 encoding=utf-8?><p>hi</p>")
                            "utf-8"))
    by (vm_compute; reflexivity).
  assert (Hclean : @clean_html Sample.libraries cleaner
                     (@inlined Sample.libraries
                        "<?xml version=1.0 encoding=utf-8?><p>hi</p>")
                   = Py.Ok "<?xml version=1.0 encoding=utf-8?><p>hi</p>")
    by (vm_compute; reflexivity).
  assert (Hask : @image_decision Sample.libraries Sample.declared_view false
                 = Py.Ok (false, true))
    by (vm_compute; reflexivity).
  assert (Hparse : Py.and_then
                     (@fromstring Sample.libraries
                        "<?xml version=1.0 encoding=utf-8?><p>hi</p>")
                     (fun tree => @tostring Sample.libraries (remove_sources tree))
                   = Py.Raise Py.ValueError)
    by (vm_compute; reflexivity).
  destruct (@image_failure_keeps_html_mode Sample.libraries Sample.declared_view
              "a@example.com" _ _ true Py.ValueError []
              Hfrom Hfind Hhtml Hclean Hask Hparse eq_refl)
    as [Heq _].
  rewrite Heq. vm_compute. reflexivity.
Defined.

(** C3 fails as stated: with different parents and equal left values it
    is the plain part that is selected, not the HTML part. *)
Lemma equal_left_html_does_not_win :
  parent Sample.tied_html <> parent Sample.tied_plain
  /\ lft Sample.tied_html = lft Sample.tied_plain
  /\ find_body Sample.alternative_view (Some Sample.tied_html) (Some Sample.tied_plain)
     = Some true
  /\ find_body Sample.alternative_view (Some Sample.tied_html) (Some Sample.tied_plain)
     <> Some false.
Proof.
  repeat split; try (vm_compute; reflexivity); vm_compute; discriminate.
Qed.

Lemma equal_left_selects_plain_witness :
  parent Sample.tied_html <> parent Sample.tied_plain
  /\ lft Sample.tied_html = lft Sample.tied_plain
  /\ find_body Sample.alternative_view (Some Sample.tied_html) (Some Sample.tied_plain)
     = Some true.
Proof.
  assert (Hne : parent Sample.tied_html <> parent Sample.tied_plain)
    by (vm_compute; discriminate).
  assert (Heq : lft Sample.tied_html = lft Sample.tied_plain) by reflexivity.
  split; [exact Hne |]. split; [exact Heq |].
  exact (equal_left_selects_plain Sample.alternative_view
           Sample.tied_html Sample.tied_plain Hne Heq).
Defined.

(** C4 fails as stated: when the cleaner raises an exception other
    than the two its handler names, here a [TypeError], on the message
    with a plain-text alternative, the render raises it: no fallback
    body, no plain mode, no error message. *)
Lemma cleaning_failure_may_escape :
  find_body Sample.garbled_view
    (html (found_parts Sample.garbled_view)) (plain (found_parts Sample.garbled_view))
  = Some false
  /\ @clean_html Cases.strict_cleaner cleaner
       (@inlined Cases.strict_cleaner "garbage") = Py.Raise Py.TypeError
  /\ @get_context_data Cases.strict_cleaner Sample.garbled_view []
     = ([], Py.Raise Py.TypeError).
Proof. repeat split; vm_compute; reflexivity. Qed.

(** C4 at the message whose HTML the cleaner refuses: the plain text
    [hi] is returned in plain mode with one error in the store. *)
Lemma cleaning_failure_falls_back_witness :
  html (found_parts Sample.garbled_view)
  = Some (Sample.kept (Sample.html_part "garbage") "utf-8")
  /\ @get_context_data Sample.libraries Sample.garbled_view []
     = ([(Py.ERROR, invalid_html_error)],
        Py.Ok (context_of Sample.garbled_view ("Hello", "a@example.com")
                 [104%N; 105%N] "us-ascii" true false)).
Proof.
  assert (Hhtml : html (found_parts Sample.garbled_view)
                  = Some (Sample.kept (Sample.html_part "garbage") "utf-8"))
    by (vm_compute; reflexivity).
  split; [exact Hhtml |].
  assert (Hfrom : view_headers Sample.garbled_view !! "From" = Some "a@example.com")
    by (vm_compute; reflexivity).
  assert (Hfind : find_body Sample.garbled_view
                    (html (found_parts Sample.garbled_view))
                    (plain (found_parts Sample.garbled_view)) = Some false)
    by (vm_compute; reflexivity).
  assert (Hclean : @clean_html Sample.libraries cleaner
                     (@inlined Sample.libraries "garbage")
                   = Py.Raise Py.LxmlError)
    by (vm_compute; reflexivity).
  destruct (@cleaning_failure_falls_back Sample.libraries Sample.garbled_view
              "a@example.com" _ Py.LxmlError []
              Hfrom Hfind Hhtml Hclean eq_refl)
    as [Heq _].
  rewrite Heq. vm_compute. reflexivity.
Defined.


(** C6 at the two siblings of the alternative message, for a user who
    prefers HTML. *)
Lemma siblings_follow_preference_witness :
  parent Sample.html_kept = parent Sample.plain_kept
  /\ find_body Sample.alternative_view (Some Sample.html_kept) (Some Sample.plain_kept)
     = Some false
  /\ find_body Sample.alternative_view
       (Some (with_position Sample.html_kept 2 3))
       (Some (with_position Sample.plain_kept 4 5))
     = find_body Sample.alternative_view (Some Sample.html_kept) (Some Sample.plain_kept).
Proof.
  assert (Heq : parent Sample.html_kept = parent Sample.plain_kept) by reflexivity.
  split; [exact Heq |].
  destruct (siblings_follow_preference Sample.alternative_view
              Sample.html_kept Sample.plain_kept Heq) as (Hhtml & _ & Hswap & _).
  split; [apply Hhtml; reflexivity | exact Hswap].
Defined.

(** C7 at an HTML part at left 5 and a plain part at left 2 that are not
    siblings. *)
Lemma strangers_follow_position_witness :
  parent Sample.late_html <> parent Sample.early_plain
  /\ lft Sample.early_plain < lft Sample.late_html
  /\ find_body Sample.alternative_view (Some Sample.late_html) (Some Sample.early_plain)
     = Some true.
Proof.
  assert (Hne : parent Sample.late_html <> parent Sample.early_plain)
    by (vm_compute; discriminate).
  assert (Hlt : lft Sample.early_plain < lft Sample.late_html) by (vm_compute; reflexivity).
  split; [exact Hne |]. split; [exact Hlt |].
  exact (proj2 (strangers_follow_position Sample.alternative_view
                  Sample.late_html Sample.early_plain Hne) Hlt).
Defined.

(** C8 at the message whose only kept part is an image. *)
Lemma no_viable_body_witness :
  find_body Sample.picture_view
    (html (found_parts Sample.picture_view)) (plain (found_parts Sample.picture_view))
  = None
  /\ @get_context_data Sample.libraries Sample.picture_view []
     = ([], Py.Ok (context_of Sample.picture_view ("Hello", "a@example.com")
                     [80%N; 78%N; 71%N] "latin-1" true false)).
Proof.
  assert (Hfrom : view_headers Sample.picture_view !! "From" = Some "a@example.com")
    by (vm_compute; reflexivity).
  assert (Hnone : find_body Sample.picture_view
                    (html (found_parts Sample.picture_view))
                    (plain (found_parts Sample.picture_view)) = None)
    by (vm_compute; reflexivity).
  split; [exact Hnone |].
  destruct (@no_viable_body Sample.libraries Sample.picture_view "a@example.com" []
              Hfrom Hnone) as [Hone _].
  destruct (Hone (Sample.kept Sample.image_part "latin-1")
              {| content_type := ["image/png"; " charset=latin-1"]; filename := "a.png" |})
    as [_ Heq]; [vm_compute; reflexivity |].
  rewrite Heq. vm_compute. reflexivity.
Defined.


(** C10 at the message with nothing but a container, and at the
    message whose only kept part is an image declared as latin-1. *)
Lemma charset_always_defined_witness :
  length (found (found_parts Sample.hollow_view)) <> 1%nat
  /\ set_raw_body Sample.hollow_view (found_parts Sample.hollow_view)
     = Py.Ok {| Draft.body := EmptyString; Draft.charset := "utf-8";
                Draft.plain_message := true |}
  /\ ("latin-1" = "utf-8"
      \/ exists part, part ∈ parts (object Sample.picture_view)
                      /\ "latin-1" = default "utf-8" (parameters part !! "charset"))
  /\ @get_context_data Sample.libraries Sample.picture_view []
     = ([], Py.Ok (context_of Sample.picture_view ("Hello", "a@example.com")
                     [80%N; 78%N; 71%N] "latin-1" true false))
  /\ @get_context_data Sample.libraries Sample.hollow_view []
     = ([], Py.Ok (context_of Sample.hollow_view ("Hello", "a@example.com")
                     [] "utf-8" true false)).
Proof.
  assert (Hlen : length (found (found_parts Sample.hollow_view)) <> 1%nat)
    by (vm_compute; discriminate).
  pose proof (@charset_always_defined Sample.libraries Sample.hollow_view)
    as (Hraw & _ & _ & _ & Hempty & _).
  pose proof (@charset_always_defined Sample.libraries Sample.picture_view)
    as (_ & _ & _ & Hdefined & _ & Hsingle & _).
  split; [exact Hlen |]. split; [| split; [| split]].
  - apply Hraw; [vm_compute; reflexivity | exact Hlen].
  - apply (Hdefined [] []
             (context_of Sample.picture_view ("Hello", "a@example.com")
                [80%N; 78%N; 71%N] "latin-1" true false)).
    vm_compute. reflexivity.
  - rewrite (Hsingle "a@example.com" [] (Sample.kept Sample.image_part "latin-1")
               {| content_type := ["image/png"; " charset=latin-1"];
                  filename := "a.png" |});
      vm_compute; reflexivity.
  - rewrite (Hempty "a@example.com" []); [| vm_compute; reflexivity ..| exact Hlen].
    vm_compute. reflexivity.
Defined.

(** * More properties of the view *)

(** ** Strings *)

Section Strings.

Lemma append_cons (x : ascii) (a b : string) :
  (String x a ++ b)%string = String x (a ++ b)%string.
Proof. reflexivity. Qed.

Lemma append_empty_l (b : string) : (EmptyString ++ b)%string = b.
Proof. reflexivity. Qed.

Lemma append_assoc (a b c : string) : ((a ++ b) ++ c = a ++ (b ++ c))%string.
Proof.
  induction a as [| x a IH]; [reflexivity |].
  rewrite !append_cons, IH. reflexivity.
Qed.

Lemma append_empty_r (a : string) : (a ++ EmptyString)%string = a.
Proof.
  induction a as [| x a IH]; [reflexivity |]. rewrite append_cons, IH. reflexivity.
Qed.

Lemma length_append (a b : string) :
  String.length (a ++ b)%string = (String.length a + String.length b)%nat.
Proof.
  induction a as [| x a IH]; [reflexivity |]. rewrite append_cons. simpl.
  rewrite IH. reflexivity.
Qed.

Lemma all_chars_append (p : ascii -> bool) (a b : string) :
  all_chars p (a ++ b)%string = all_chars p a && all_chars p b.
Proof.
  induction a as [| x a IH]; [reflexivity |]. rewrite append_cons. simpl.
  rewrite IH, andb_assoc. reflexivity.
Qed.

Lemma span_append (p : ascii -> bool) (a b : string) :
  all_chars p a = true -> stops p b = true ->
  HeaderParams.span p (a ++ b)%string = (a, b).
Proof.
  intros Ha Hb. induction a as [| x a IH].
  - rewrite append_empty_l. destruct b as [| c b]; [reflexivity |]. simpl in *.
    apply negb_true_iff in Hb. rewrite Hb. reflexivity.
  - rewrite append_cons. simpl in *.
    apply andb_true_iff in Ha as [Hx Ha]. rewrite Hx, (IH Ha). reflexivity.
Qed.

Lemma span_spec (p : ascii -> bool) (s a b : string) :
  HeaderParams.span p s = (a, b) ->
  s = (a ++ b)%string /\ all_chars p a = true /\ stops p b = true.
Proof.
  revert a b. induction s as [| c s IH]; simpl; intros a b.
  - intros [= <- <-]. repeat split.
  - destruct (p c) eqn:Hc.
    + destruct (HeaderParams.span p s) as [a' b'] eqn:Hs. intros [= <- <-].
      destruct (IH a' b' eq_refl) as (-> & Ha & Hb). rewrite append_cons. simpl.
      rewrite Hc. repeat split; assumption.
    + intros [= <- <-]. rewrite append_empty_l. simpl. rewrite Hc. repeat split.
Qed.

End Strings.

(** ** The header parameters *)

Section Parameters.

Lemma match_at_well_formed (s k v : string) (n : nat) :
  HeaderParams.match_at s = Some (k, v, n) ->
  k <> EmptyString /\ all_chars HeaderParams.is_word k = true
  /\ v <> EmptyString /\ all_chars HeaderParams.is_value v = true.
Proof.
  unfold HeaderParams.match_at.
  destruct (HeaderParams.span HeaderParams.is_word s) as [key r1] eqn:Hkey.
  destruct key as [| k0 key]; [discriminate |].
  destruct r1 as [| c r2]; [discriminate |].
  destruct (Ascii.eqb_spec c "="%char) as [-> | Hne].
  2:{ destruct c as [[] [] [] [] [] [] [] []]; try discriminate. contradiction. }
  destruct (HeaderParams.optional HeaderParams.is_quote r2) as [q1 r3].
  destruct (HeaderParams.span HeaderParams.is_value r3) as [value r4] eqn:Hvalue.
  destruct value as [| v0 value]; [discriminate |].
  destruct (HeaderParams.optional HeaderParams.is_quote r4) as [q2 r5].
  destruct (HeaderParams.optional (Ascii.eqb ";"%char) r5) as [semi r6].
  intros [= <- <- <-].
  apply span_spec in Hkey as (_ & Hk & _). apply span_spec in Hvalue as (_ & Hv & _).
  repeat split; (discriminate || assumption).
Qed.

Lemma findall_from_well_formed (s : string) (skip : nat) (k v : string) :
  (k, v) ∈ HeaderParams.findall_from skip s ->
  k <> EmptyString /\ all_chars HeaderParams.is_word k = true
  /\ v <> EmptyString /\ all_chars HeaderParams.is_value v = true.
Proof.
  revert skip. induction s as [| c s IH]; intros skip; simpl.
  - intros H. apply elem_of_nil in H. destruct H.
  - destruct skip as [| n]; [| apply IH].
    destruct (HeaderParams.match_at (String c s)) as [[[k' v'] len] |] eqn:Hm; [| apply IH].
    intros [[= -> ->] | Hin]%elem_of_cons; [| exact (IH _ Hin)].
    exact (match_at_well_formed _ _ _ _ Hm).
Qed.

(** X1.  Whatever the text, every pair [findall] returns has a name
    that is a non-empty run of letters and digits and a value that is
    not empty and holds no quote, no semicolon and no equals sign. *)
Theorem findall_pairs_well_formed (s k v : string) :
  (k, v) ∈ HeaderParams.findall s ->
  k <> EmptyString /\ all_chars HeaderParams.is_word k = true
  /\ v <> EmptyString /\ all_chars HeaderParams.is_value v = true.
Proof. apply findall_from_well_formed. Qed.

Lemma match_at_needs_equals (s : string) :
  all_chars (is_not "="%char) s = true -> HeaderParams.match_at s = None.
Proof.
  intros Hs. unfold HeaderParams.match_at.
  destruct (HeaderParams.span HeaderParams.is_word s) as [key r1] eqn:Hkey.
  apply span_spec in Hkey as (-> & _ & _).
  rewrite all_chars_append in Hs. apply andb_true_iff in Hs as [_ Hr].
  destruct key as [| k0 key]; [reflexivity |].
  destruct r1 as [| c r2]; [reflexivity |].
  simpl in Hr. apply andb_true_iff in Hr as [Hc _].
  destruct c as [[] [] [] [] [] [] [] []]; try reflexivity. discriminate.
Qed.

Lemma findall_from_without_equals (s : string) (skip : nat) :
  all_chars (is_not "="%char) s = true -> HeaderParams.findall_from skip s = [].
Proof.
  revert skip. induction s as [| c s IH]; intros skip Hs; [reflexivity |].
  assert (Hs' : all_chars (is_not "="%char) s = true).
  { simpl in Hs. apply andb_true_iff in Hs as [_ Hs]. exact Hs. }
  cbn [HeaderParams.findall_from]. destruct skip as [| n]; [| apply IH, Hs'].
  rewrite (match_at_needs_equals _ Hs). apply IH, Hs'.
Qed.

Lemma findall_from_skip (a b : string) :
  HeaderParams.findall_from (String.length a) (a ++ b)%string
  = HeaderParams.findall_from 0 b.
Proof.
  induction a as [| x a IH].
  - rewrite append_empty_l. destruct b; reflexivity.
  - rewrite append_cons. simpl. exact IH.
Qed.

Lemma findall_pad (pad s : string) :
  all_chars not_word pad = true ->
  HeaderParams.findall (pad ++ s)%string = HeaderParams.findall s.
Proof.
  unfold HeaderParams.findall. induction pad as [| c pad IH]; intros Hp;
    [reflexivity |].
  simpl in Hp. apply andb_true_iff in Hp as [Hc Hp]. rewrite append_cons.
  cbn [HeaderParams.findall_from].
  replace (HeaderParams.match_at (String c (pad ++ s)%string)) with
    (@None (string * string * nat)); [apply IH, Hp |].
  unfold HeaderParams.match_at. cbn [HeaderParams.span].
  unfold not_word in Hc. apply negb_true_iff in Hc. rewrite Hc. reflexivity.
Qed.

Lemma optional_skip (p : ascii -> bool) (s : string) :
  stops p s = true -> HeaderParams.optional p s = (0%nat, s).
Proof.
  destruct s as [| c s]; [reflexivity |]. simpl. intros H.
  apply negb_true_iff in H. rewrite H. reflexivity.
Qed.

Lemma value_starts_unquoted (v rest : string) :
  v <> EmptyString -> all_chars HeaderParams.is_value v = true ->
  stops HeaderParams.is_quote (v ++ rest)%string = true.
Proof.
  intros Hne Hv. destruct v as [| c v]; [congruence |]. rewrite append_cons.
  simpl in *. apply andb_true_iff in Hv as [Hc _].
  unfold HeaderParams.is_value in Hc. apply negb_true_iff in Hc.
  apply orb_false_iff in Hc as [Hc _]. apply orb_false_iff in Hc as [Hc _].
  rewrite Hc. reflexivity.
Qed.

(** The match on a parameter as written, whatever follows it. *)
Lemma match_at_written (key quote value rest : string) :
  key <> EmptyString -> all_chars HeaderParams.is_word key = true ->
  value <> EmptyString -> all_chars HeaderParams.is_value value = true ->
  quote = EmptyString \/ quote = "'" \/ quote = double_quote ->
  HeaderParams.match_at (key ++ "=" ++ quote ++ value ++ quote ++ ";" ++ rest)%string
  = Some (key, value,
          (String.length key + 1 + String.length quote + String.length value
           + String.length quote + 1)%nat).
Proof.
  intros Hk Hkw Hv Hvv Hq. unfold HeaderParams.match_at.
  rewrite (span_append HeaderParams.is_word key _ Hkw) by reflexivity.
  destruct key as [| k0 key]; [congruence |].
  rewrite (append_cons "="%char), append_empty_l.
  destruct Hq as [-> | [-> | ->]].
  - rewrite !append_empty_l.
    rewrite (optional_skip _ _ (value_starts_unquoted value _ Hv Hvv)).
    rewrite (span_append HeaderParams.is_value value _ Hvv) by reflexivity.
    destruct value as [| v0 value]; [congruence |].
    simpl. repeat f_equal; lia.
  - rewrite !(append_cons "'"%char), !append_empty_l. cbn [HeaderParams.optional].
    change (HeaderParams.is_quote "'"%char) with true. cbn iota.
    rewrite (span_append HeaderParams.is_value value _ Hvv) by reflexivity.
    destruct value as [| v0 value]; [congruence |].
    simpl. repeat f_equal; lia.
  - unfold double_quote. rewrite !(append_cons "034"%char), !append_empty_l.
    cbn [HeaderParams.optional].
    change (HeaderParams.is_quote "034"%char) with true. cbn iota.
    rewrite (span_append HeaderParams.is_value value _ Hvv) by reflexivity.
    destruct value as [| v0 value]; [congruence |].
    simpl. repeat f_equal; lia.
Qed.

Lemma findall_written (key quote value rest : string) :
  key <> EmptyString -> all_chars HeaderParams.is_word key = true ->
  value <> EmptyString -> all_chars HeaderParams.is_value value = true ->
  quote = EmptyString \/ quote = "'" \/ quote = double_quote ->
  HeaderParams.findall (key ++ "=" ++ quote ++ value ++ quote ++ ";" ++ rest)%string
  = (key, value) :: HeaderParams.findall rest.
Proof.
  intros Hk Hkw Hv Hvv Hq. unfold HeaderParams.findall.
  pose proof (match_at_written key quote value rest Hk Hkw Hv Hvv Hq) as Hm.
  destruct key as [| k0 key]; [congruence |].
  rewrite append_cons in *. cbn [HeaderParams.findall_from]. rewrite Hm.
  f_equal.
  replace (key ++ "=" ++ quote ++ value ++ quote ++ ";" ++ rest)%string
    with ((key ++ "=" ++ quote ++ value ++ quote ++ ";") ++ rest)%string
    by (rewrite !append_assoc; reflexivity).
  replace (Nat.pred (String.length (String k0 key) + 1 + String.length quote
                     + String.length value + String.length quote + 1))
    with (String.length (key ++ "=" ++ quote ++ value ++ quote ++ ";")%string).
  - apply findall_from_skip.
  - rewrite !length_append. simpl. lia.
Qed.

(** X2.  Parameters written one after the other, each as separator,
    name, equals sign, value between optional quotes, semicolon, are
    read back by [findall] as the list of their names and values, in
    order. *)
Theorem findall_write_params (ws : list Written.t) :
  Forall (fun w => well_written w = true) ws ->
  HeaderParams.findall (write_params ws)
  = map (fun w => (Written.key w, Written.value w)) ws.
Proof.
  induction 1 as [| w ws Hw _ IH]; [reflexivity |].
  cbn [write_params foldr map]. fold (write_params ws).
  unfold well_written in Hw.
  apply andb_true_iff in Hw as [Hw Hq]. apply andb_true_iff in Hw as [Hw Hvv].
  apply andb_true_iff in Hw as [Hw Hvne]. apply andb_true_iff in Hw as [Hw Hkw].
  apply andb_true_iff in Hw as [Hpad Hkne].
  apply negb_true_iff, String.eqb_neq in Hkne, Hvne.
  unfold write_param. rewrite !append_assoc.
  rewrite findall_pad by exact Hpad.
  rewrite (findall_written _ _ _ _ Hkne Hkw Hvne Hvv).
  - rewrite IH. reflexivity.
  - apply orb_true_iff in Hq as [Hq | Hq]; [apply orb_true_iff in Hq as [Hq | Hq] |];
      apply String.eqb_eq in Hq; auto.
Qed.

(** X3.  A text without an equals sign holds no parameter; the empty
    text is one. *)
Theorem findall_without_equals (s : string) :
  all_chars (is_not "="%char) s = true -> HeaderParams.findall s = [].
Proof. apply findall_from_without_equals. Qed.

End Parameters.

(** ** The parameters of a part *)

Section Part_parameters.

Lemma dict_lookup_from (k : string) (pairs : list (string * string))
    (d : gmap string string) :
  foldl (fun d kv => <[kv.1 := kv.2]> d) d pairs !! k
  = foldl (fun found kv => if String.eqb kv.1 k then Some kv.2 else found)
      (d !! k) pairs.
Proof.
  revert d. induction pairs as [| [k' v'] pairs IH]; intros d; [reflexivity |].
  simpl. rewrite IH. f_equal. rewrite lookup_insert.
  destruct (String.eqb_spec k' k) as [-> | Hne];
    [rewrite decide_True by reflexivity | rewrite decide_False by exact Hne];
    reflexivity.
Qed.

Lemma dict_lookup (k : string) (pairs : list (string * string)) :
  Py.dict pairs !! k = last_binding k pairs.
Proof. unfold Py.dict, last_binding. rewrite dict_lookup_from. reflexivity. Qed.

Lemma last_binding_from_elem (k v : string) (pairs : list (string * string))
    (start : option string) :
  foldl (fun found kv => if String.eqb kv.1 k then Some kv.2 else found) start pairs
  = Some v ->
  start = Some v \/ (k, v) ∈ pairs.
Proof.
  revert start. induction pairs as [| [k' v'] pairs IH]; intros start; simpl;
    [auto |].
  intros H. apply IH in H as [H | H]; [| right; right; exact H].
  destruct (String.eqb_spec k' k) as [-> | Hne]; [| left; exact H].
  injection H as ->. right. left.
Qed.

Lemma last_binding_elem (k v : string) (pairs : list (string * string)) :
  last_binding k pairs = Some v -> (k, v) ∈ pairs.
Proof.
  intros H. apply last_binding_from_elem in H as [H | H]; [discriminate | exact H].
Qed.

Lemma get_many_lookup (names : list string) (headers : gmap string string) (k : string) :
  get_many names headers !! k
  = if bool_decide (k ∈ names) then headers !! k else None.
Proof.
  induction names as [| name names IH]; simpl.
  - rewrite lookup_empty. reflexivity.
  - assert (Hrest : (if bool_decide (k ∈ name :: names) then headers !! k else None)
                    = if decide (name = k) then headers !! k
                      else if bool_decide (k ∈ names) then headers !! k else None).
    { destruct (decide (name = k)) as [-> | Hne].
      - rewrite bool_decide_eq_true_2 by left. reflexivity.
      - destruct (bool_decide (k ∈ names)) eqn:Hin.
        + apply bool_decide_eq_true in Hin. rewrite bool_decide_eq_true_2 by (right; exact Hin).
          reflexivity.
        + apply bool_decide_eq_false in Hin. rewrite bool_decide_eq_false_2; [reflexivity |].
          intros [Heq | Hin']%elem_of_cons; [congruence | contradiction]. }
    rewrite Hrest. destruct (headers !! name) as [data |] eqn:Hname.
    + rewrite lookup_insert. destruct (decide (name = k)) as [<- | Hne];
        [symmetry; exact Hname | exact IH].
    + rewrite IH. destruct (decide (name = k)) as [<- | Hne]; [| reflexivity].
      rewrite Hname. destruct (bool_decide (name ∈ names)); reflexivity.
Qed.

Lemma split_content_type_header (part : MimePart) :
  split_content_type part = Py.split1 ";" (header part "Content-Type").
Proof.
  unfold split_content_type, header. rewrite get_many_lookup.
  rewrite bool_decide_eq_true_2 by left. reflexivity.
Qed.

Lemma disposition_header (part : MimePart) :
  disposition part = header part "Content-Disposition".
Proof.
  unfold disposition, header. rewrite get_many_lookup.
  rewrite bool_decide_eq_true_2 by (right; left). reflexivity.
Qed.

Lemma split1_spec (sep : ascii) (s : string) :
  (Py.split1 sep s = [s] /\ all_chars (is_not sep) s = true)
  \/ exists a b, Py.split1 sep s = [a; b]
                 /\ s = (a ++ String sep b)%string
                 /\ all_chars (is_not sep) a = true.
Proof.
  induction s as [| c s IH]; [left; split; reflexivity |].
  simpl. unfold is_not at 1. destruct (Ascii.eqb_spec c sep) as [-> | Hne].
  - right. exists EmptyString, s. repeat split.
  - destruct IH as [[-> Hs] | (a & b & -> & -> & Ha)].
    + left. split; [reflexivity | exact Hs].
    + right. exists (String c a), b. rewrite append_cons. simpl.
      unfold is_not at 1. rewrite (proj2 (Ascii.eqb_neq c sep) Hne). repeat split.
      exact Ha.
Qed.

(** X4.  Line 126 splits the Content-Type value at its first semicolon:
    either the value has no semicolon and is the main type, alone, or it
    is the main type, a semicolon and the parameter text, and the main
    type has no semicolon. *)
Theorem content_type_split (part : MimePart) :
  (split_content_type part = [header part "Content-Type"]
   /\ all_chars (is_not ";"%char) (header part "Content-Type") = true)
  \/ exists main text,
       split_content_type part = [main; text]
       /\ header part "Content-Type" = (main ++ ";" ++ text)%string
       /\ all_chars (is_not ";"%char) main = true.
Proof.
  rewrite split_content_type_header.
  destruct (split1_spec ";" (header part "Content-Type")) as [H | (a & b & H)];
    [left; exact H | right; exists a, b; exact H].
Qed.

(** X5.  A parameter of a part has the value of its last occurrence in
    the Content-Disposition header, and only when that header does not
    name it the value of its last occurrence in the parameter text of
    the Content-Type header. *)
Theorem parameters_lookup (part : MimePart) (k : string) :
  parameters part !! k
  = match last_binding k (HeaderParams.findall (header part "Content-Disposition")) with
    | Some v => Some v
    | None => last_binding k (content_type_params part)
    end.
Proof.
  assert (Hct : match split_content_type part !! 1%nat with
                | Some text => Py.dict (HeaderParams.findall text)
                | None => ∅
                end !! k = last_binding k (content_type_params part)).
  { unfold content_type_params.
    destruct (split_content_type part !! 1%nat) as [text |];
      [apply dict_lookup | apply lookup_empty]. }
  unfold parameters, Py.update.
  rewrite lookup_union, Hct, disposition_header, dict_lookup.
  destruct (last_binding k (HeaderParams.findall _)) as [v |];
    destruct (last_binding k (content_type_params part)); reflexivity.
Qed.

Lemma parameter_value_well_formed (part : MimePart) (k v : string) :
  parameters part !! k = Some v ->
  v <> EmptyString /\ all_chars HeaderParams.is_value v = true.
Proof.
  intros H. unfold parameters, Py.update in H.
  apply lookup_union_Some_raw in H as [H | [_ H]].
  - rewrite dict_lookup in H. apply last_binding_elem in H.
    apply findall_from_well_formed in H. tauto.
  - destruct (split_content_type part !! 1%nat) as [text |];
      [| rewrite lookup_empty in H; discriminate].
    rewrite dict_lookup in H. apply last_binding_elem in H.
    apply findall_from_well_formed in H. tauto.
Qed.

Lemma classify_well_formed (part : MimePart) (p : Part) (head : PartHead) :
  classify part = Some (p, head) ->
  charset p <> EmptyString
  /\ all_chars HeaderParams.is_value (charset p) = true
  /\ all_chars HeaderParams.is_value (filename head) = true.
Proof.
  unfold classify. destruct (_ || _); [discriminate |]. intros [= <- <-]. simpl.
  unfold grab_charset, find_filename.
  destruct (parameters part !! "charset") as [c |] eqn:Hc; simpl.
  - apply parameter_value_well_formed in Hc as [Hne Hc]. split; [exact Hne |].
    split; [exact Hc |].
    destruct (parameters part !! "filename") as [f |] eqn:Hf;
      [apply parameter_value_well_formed in Hf; tauto |].
    destruct (parameters part !! "name") as [f |] eqn:Hn;
      [apply parameter_value_well_formed in Hn; tauto | reflexivity].
  - split; [discriminate |]. split; [reflexivity |].
    destruct (parameters part !! "filename") as [f |] eqn:Hf;
      [apply parameter_value_well_formed in Hf; tauto |].
    destruct (parameters part !! "name") as [f |] eqn:Hn;
      [apply parameter_value_well_formed in Hn; tauto | reflexivity].
Qed.

(** X6.  A part whose Content-Type and Content-Disposition values hold
    no equals sign (a part without these headers is one) has no
    parameters: if it is kept, its charset is utf-8 and its file name is
    empty. *)
Theorem bare_part_defaults (part : MimePart) :
  all_chars (is_not "="%char) (header part "Content-Type") = true ->
  all_chars (is_not "="%char) (header part "Content-Disposition") = true ->
  parameters part = ∅
  /\ forall p head, classify part = Some (p, head) ->
                    charset p = "utf-8" /\ filename head = EmptyString.
Proof.
  intros Hct Hcd.
  assert (Hnone : parameters part = ∅).
  { unfold parameters, Py.update, HeaderParams.findall. rewrite disposition_header.
    rewrite (findall_from_without_equals _ 0 Hcd).
    rewrite split_content_type_header.
    destruct (split1_spec ";" (header part "Content-Type")) as [[-> _] | (a & b & -> & Hs & _)];
      simpl.
    - apply (left_id_L ∅ (∪)).
    - rewrite Hs, all_chars_append in Hct. apply andb_true_iff in Hct as [_ Hb].
      simpl in Hb.
      rewrite (findall_from_without_equals _ 0 Hb). apply (left_id_L ∅ (∪)). }
  split; [exact Hnone |].
  intros p head. unfold classify. destruct (_ || _); [discriminate |].
  intros [= <- <-]. simpl. rewrite Hnone. split; reflexivity.
Qed.

End Part_parameters.

(** ** What the loop keeps *)

Section Kept.

Lemma classify_container (part : MimePart) :
  classify part = None <-> container_type part = true.
Proof.
  unfold classify, container_type.
  destruct (_ || _); split; intros H; reflexivity || discriminate.
Qed.

Lemma classify_row (part : MimePart) (p : Part) (head : PartHead) :
  classify part = Some (p, head) -> row p = part.
Proof. intros H. apply classify_charset in H as [H _]. exact H. Qed.

Lemma loop_body_found (st : Found) (part : MimePart) :
  found (loop_body st part)
  = found st ++ match classify part with Some entry => [entry] | None => [] end.
Proof.
  unfold loop_body. destruct (classify part) as [[p head] |].
  - destruct (_ && _); [reflexivity |]. destruct (_ && _); reflexivity.
  - rewrite app_nil_r. reflexivity.
Qed.

Lemma foldl_loop_found (ps : list MimePart) (st : Found) :
  found (foldl loop_body st ps) = found st ++ omap classify ps.
Proof.
  revert st. induction ps as [| part ps IH]; intros st; simpl.
  - rewrite app_nil_r. reflexivity.
  - rewrite IH, loop_body_found, <- app_assoc.
    destruct (classify part); reflexivity.
Qed.

Lemma omap_classify_rows (ps : list MimePart) :
  map (fun entry : Part * PartHead => row entry.1) (omap classify ps)
  = List.filter (fun part => negb (container_type part)) ps.
Proof.
  induction ps as [| part ps IH]; [reflexivity |].
  change (omap classify (part :: ps))
    with (match classify part with
          | Some entry => entry :: omap classify ps
          | None => omap classify ps
          end).
  cbn [List.filter].
  destruct (classify part) as [[p head] |] eqn:Hc.
  - assert (Hk : container_type part = false).
    { destruct (container_type part) eqn:Hk; [| reflexivity].
      apply classify_container in Hk. congruence. }
    rewrite Hk. cbn [negb map fst]. rewrite IH, (classify_row _ _ _ Hc). reflexivity.
  - apply classify_container in Hc. rewrite Hc. exact IH.
Qed.

(** X7.  The attachments of the context are the parts of the message
    other than those whose main type starts with multipart or message,
    each once and in storage order, and no part is among them that the
    message does not have. *)
Theorem kept_parts_are_the_leaves (ps : list MimePart) :
  found (iterate_parts ps) = omap classify ps
  /\ map (fun entry : Part * PartHead => row entry.1) (found (iterate_parts ps))
     = List.filter (fun part => negb (container_type part)) ps
  /\ (length (found (iterate_parts ps)) <= length ps)%nat.
Proof.
  assert (Hfound : found (iterate_parts ps) = omap classify ps).
  { unfold iterate_parts. rewrite foldl_loop_found. reflexivity. }
  split; [exact Hfound |]. rewrite Hfound. split; [apply omap_classify_rows |].
  rewrite <- (length_map (fun entry : Part * PartHead => row entry.1)), omap_classify_rows.
  apply List.filter_length_le.
Qed.

Lemma first_of_snoc (type : string) (kept : list (Part * PartHead))
    (entry : Part * PartHead) :
  first_of type (kept ++ [entry])
  = match first_of type kept with
    | Some p => Some p
    | None => if String.eqb (main_type entry.2) type then Some entry.1 else None
    end.
Proof.
  unfold first_of. rewrite List.filter_app.
  destruct (List.filter _ kept) as [| e l]; simpl.
  - destruct (String.eqb (main_type entry.2) type); reflexivity.
  - reflexivity.
Qed.

Lemma loop_body_first (st : Found) (part : MimePart) :
  html st = first_of "text/html" (found st) ->
  plain st = first_of "text/plain" (found st) ->
  html (loop_body st part) = first_of "text/html" (found (loop_body st part))
  /\ plain (loop_body st part) = first_of "text/plain" (found (loop_body st part)).
Proof.
  intros Hh Hp. unfold loop_body.
  destruct (classify part) as [[p head] |]; [| split; assumption].
  fold (main_type head).
  assert (Hsnoc : forall type,
             first_of type (found st ++ [(p, head)])
             = match first_of type (found st) with
               | Some x => Some x
               | None => if String.eqb (main_type head) type then Some p else None
               end) by (intros; apply first_of_snoc).
  destruct (String.eqb (main_type head) "text/html") eqn:E1;
    destruct (String.eqb (main_type head) "text/plain") eqn:E2.
  - exfalso. apply String.eqb_eq in E1, E2. congruence.
  - destruct (html st) as [h |] eqn:Hhtml.
    + rewrite (bool_decide_eq_false_2 (Some h = None)) by discriminate.
      rewrite andb_false_r. cbn [andb html plain found].
      rewrite !Hsnoc, <- Hh, <- Hp, E2.
      split; [reflexivity | destruct (plain st); reflexivity].
    + rewrite (bool_decide_eq_true_2 (@None Part = None)) by reflexivity.
      cbn [andb html plain found]. rewrite !Hsnoc, <- Hh, <- Hp, E1, E2.
      split; [reflexivity | destruct (plain st); reflexivity].
  - rewrite andb_false_r. destruct (plain st) as [q |] eqn:Hplain.
    + rewrite (bool_decide_eq_false_2 (Some q = None)) by discriminate.
      cbn [andb html plain found]. rewrite !Hsnoc, <- Hh, <- Hp, E1.
      split; [destruct (html st); reflexivity | reflexivity].
    + rewrite (bool_decide_eq_true_2 (@None Part = None)) by reflexivity.
      cbn [andb html plain found]. rewrite !Hsnoc, <- Hh, <- Hp, E1, E2.
      split; [destruct (html st); reflexivity | reflexivity].
  - rewrite !andb_false_r. cbn [html plain found].
    rewrite !Hsnoc, <- Hh, <- Hp, E1, E2.
    split; [destruct (html st) | destruct (plain st)]; reflexivity.
Qed.

Lemma foldl_loop_first (ps : list MimePart) (st : Found) :
  html st = first_of "text/html" (found st) ->
  plain st = first_of "text/plain" (found st) ->
  html (foldl loop_body st ps) = first_of "text/html" (found (foldl loop_body st ps))
  /\ plain (foldl loop_body st ps)
     = first_of "text/plain" (found (foldl loop_body st ps)).
Proof.
  revert st. induction ps as [| part ps IH]; intros st Hh Hp; simpl.
  - split; assumption.
  - destruct (loop_body_first st part Hh Hp) as [Hh' Hp']. apply IH; assumption.
Qed.

Lemma iterate_parts_first (ps : list MimePart) :
  html (iterate_parts ps) = first_of "text/html" (found (iterate_parts ps))
  /\ plain (iterate_parts ps) = first_of "text/plain" (found (iterate_parts ps)).
Proof. apply foldl_loop_first; reflexivity. Qed.

(** X8.  The HTML part handed to [find_body] is the first kept part, in
    storage order, whose main type is exactly text/html, and the plain
    part is the first whose main type is exactly text/plain; each is
    absent exactly when no kept part has that main type. *)
Theorem first_seen_parts (ps : list MimePart) :
  html (iterate_parts ps) = first_of "text/html" (found (iterate_parts ps))
  /\ plain (iterate_parts ps) = first_of "text/plain" (found (iterate_parts ps)).
Proof. apply iterate_parts_first. Qed.

End Kept.

(** ** The selector and the raw body *)

Section Selected.

Variable self : EmailView.

(** X9.  [find_body] never selects a part that is not there: it answers
    plain only when there is a plain part, HTML only when there is an
    HTML part, and nothing exactly when there is neither. *)
Theorem find_body_selects_what_exists (h p : option Part) :
  (find_body self h p = Some true -> exists part, p = Some part)
  /\ (find_body self h p = Some false -> exists part, h = Some part)
  /\ (find_body self h p = None <-> h = None /\ p = None).
Proof.
  split; [apply find_body_plain_exists |].
  split; [apply find_body_html_exists | apply find_body_None].
Qed.

(** X10.  The preference of the user is looked at only for siblings:
    two views give the same answer on the same pair of parts when their
    users prefer the same, or when the pair is not an HTML part and a
    plain part with the same parent. *)
Theorem preference_matters_for_siblings_only (other : EmailView) (h p : option Part) :
  Profile.prefer_html_email (userprofile (request self))
  = Profile.prefer_html_email (userprofile (request other))
  \/ ~ (exists a b, h = Some a /\ p = Some b /\ parent a = parent b) ->
  find_body self h p = find_body other h p.
Proof.
  intros Hcase. unfold find_body.
  destruct h as [a |], p as [b |]; try reflexivity.
  destruct (bool_decide (parent a = parent b)) eqn:Hsib; [| reflexivity].
  apply bool_decide_eq_true in Hsib.
  destruct Hcase as [-> | Hno]; [reflexivity |].
  exfalso. apply Hno. exists a, b. repeat split. exact Hsib.
Qed.

Lemma first_of_elem (type : string) (kept : list (Part * PartHead)) (p : Part) :
  first_of type kept = Some p ->
  exists head, (p, head) ∈ kept /\ main_type head = type.
Proof.
  unfold first_of.
  destruct (List.filter _ kept) as [| [q head] l] eqn:Hf; [discriminate |].
  intros [= <-]. exists head.
  assert (Hin : In (q, head)
                  (List.filter (fun entry : Part * PartHead =>
                                  String.eqb (main_type entry.2) type) kept))
    by (rewrite Hf; left; reflexivity).
  apply List.filter_In in Hin as [Hin Hm]. split.
  - apply list_elem_of_In. exact Hin.
  - apply String.eqb_eq in Hm. exact Hm.
Qed.

(** X11.  The raw body is always set, no attribute of a missing part is
    read: it is either the empty body in plain mode with charset utf-8,
    or the bytes and the charset of a part the loop kept, which in HTML
    mode is a part whose main type is text/html. *)
Theorem raw_body_origin :
  exists d,
    set_raw_body self (found_parts self) = Py.Ok d
    /\ ((Draft.plain_message d = true /\ Draft.body d = EmptyString
         /\ Draft.charset d = "utf-8")
        \/ exists (p : Part) (head : PartHead),
             (p, head) ∈ found (found_parts self)
             /\ Draft.body d = body_data p
             /\ Draft.charset d = charset p
             /\ (Draft.plain_message d = false -> main_type head = "text/html")).
Proof.
  destruct (iterate_parts_first (parts (object self))) as [Hh Hp].
  fold (found_parts self) in Hh, Hp.
  unfold set_raw_body.
  destruct (find_body self (html (found_parts self)) (plain (found_parts self)))
    as [[|] |] eqn:Hf.
  - apply find_body_plain_exists in Hf as [part Hpart]. rewrite Hpart. simpl.
    eexists. split; [reflexivity |]. right.
    rewrite Hpart in Hp. symmetry in Hp. apply first_of_elem in Hp as (head & Hin & _).
    exists part, head. simpl. repeat split; [exact Hin | discriminate].
  - apply find_body_html_exists in Hf as [part Hpart]. rewrite Hpart. simpl.
    eexists. split; [reflexivity |]. right.
    rewrite Hpart in Hh. symmetry in Hh. apply first_of_elem in Hh as (head & Hin & Hm).
    exists part, head. simpl. repeat split; [exact Hin | intros _; exact Hm].
  - destruct (found (found_parts self)) as [| [p head] [| ? ?]] eqn:Hfound;
      eexists; (split; [reflexivity |]); simpl; try (left; repeat split; reflexivity).
    right. exists p, head. repeat split; [left | discriminate].
Qed.

End Selected.

(** ** The message store, the mode and the flag of the context *)

Section Rendering.

Context `{L : Libraries}.
Variable self : EmailView.

Lemma filter_images_result (alt : option Part) (shown : bool) (d : Draft.t) :
  exists r, forall m, filter_images alt shown d m = (m, r).
Proof.
  destruct shown.
  - exists (Py.Ok d). intros m. apply filter_images_shown.
  - eexists. intros m. apply filter_images_hidden.
Qed.

Lemma filter_images_mode (alt : option Part) (shown : bool) (d d' : Draft.t)
    (m m' : list Py.message) :
  filter_images alt shown d m = (m', Py.Ok d') ->
  m' = m /\ Draft.plain_message d' = Draft.plain_message d.
Proof.
  destruct shown.
  - rewrite filter_images_shown. intros [= <- <-]. split; reflexivity.
  - rewrite filter_images_hidden.
    destruct (Py.and_then _ _) as [out | e].
    + intros [= <- <-]. split; reflexivity.
    + destruct (Py.LxmlError_or_ValueError e); [| discriminate].
      intros [= <- <-]. split; reflexivity.
Qed.

Lemma sanitize_appends (alt : option Part) (d : Draft.t) :
  exists added r,
    (forall m, sanitize alt d m = (m ++ added, r))
    /\ (added = [] \/ added = [(Py.WARNING, parse_warning)]
        \/ added = [(Py.ERROR, invalid_html_error)]
        \/ added = [(Py.WARNING, parse_warning); (Py.ERROR, invalid_html_error)]).
Proof.
  destruct (Draft.plain_message d) eqn:Hd.
  - exists [], (Py.Ok d). split; [| auto].
    intros m. rewrite app_nil_r. apply sanitize_plain, Hd.
  - assert (Hw : inline_messages (Draft.body d) = []
                 \/ inline_messages (Draft.body d) = [(Py.WARNING, parse_warning)]).
    { unfold inline_messages. destruct (Premailer_transform _); auto. }
    destruct (clean_html cleaner (inlined (Draft.body d))) as [c | e] eqn:Hc.
    + eexists (inline_messages (Draft.body d)), _. split.
      * intros m. rewrite (sanitize_html alt d m Hd), Hc. reflexivity.
      * destruct Hw as [-> | ->]; auto.
    + destruct (Py.LxmlError_or_ValueError e) eqn:He.
      * eexists (inline_messages (Draft.body d) ++ [(Py.ERROR, invalid_html_error)]), _.
        split.
        -- intros m. rewrite (sanitize_html alt d m Hd), Hc, He. reflexivity.
        -- destruct Hw as [-> | ->]; auto.
      * eexists (inline_messages (Draft.body d)), _. split.
        -- intros m. rewrite (sanitize_html alt d m Hd), Hc, He. reflexivity.
        -- destruct Hw as [-> | ->]; auto.
Qed.

(** X12.  The render only appends to the message store and never reads
    it: what it adds and what it returns or raises do not depend on the
    messages already there, and it adds nothing, the parse warning, the
    invalid-HTML error, or the warning followed by the error. *)
Theorem store_is_only_appended_to :
  exists added outcome,
    (forall m, get_context_data self m = (m ++ added, outcome))
    /\ (added = [] \/ added = [(Py.WARNING, parse_warning)]
        \/ added = [(Py.ERROR, invalid_html_error)]
        \/ added = [(Py.WARNING, parse_warning); (Py.ERROR, invalid_html_error)]).
Proof.
  destruct (read_headers self) as [headers | e] eqn:Hh.
  2:{ exists [], (Py.Raise e). split; [| auto]. intros m.
      rewrite get_context_data_stages, Hh, app_nil_r. reflexivity. }
  destruct (set_raw_body self (found_parts self)) as [raw | e] eqn:Hr.
  2:{ exists [], (Py.Raise e). split; [| auto]. intros m.
      rewrite get_context_data_stages, Hh, Hr, app_nil_r. reflexivity. }
  destruct (sanitize_appends (plain (found_parts self)) raw)
    as (added & r & Hs & Hadded).
  exists added. destruct r as [cleaned | e].
  2:{ exists (Py.Raise e). split; [| exact Hadded]. intros m.
      rewrite get_context_data_stages, Hh, Hr, Hs. reflexivity. }
  destruct (image_decision self (Draft.plain_message cleaned)) as [[shown ask] | e] eqn:Hi.
  2:{ exists (Py.Raise e). split; [| exact Hadded]. intros m.
      rewrite get_context_data_stages, Hh, Hr, Hs, Hi. reflexivity. }
  destruct (filter_images_result (plain (found_parts self)) shown cleaned) as [rf Hf].
  destruct rf as [final | e].
  - eexists. split; [| exact Hadded]. intros m.
    rewrite get_context_data_stages, Hh, Hr, Hs, Hi, Hf. reflexivity.
  - exists (Py.Raise e). split; [| exact Hadded]. intros m.
    rewrite get_context_data_stages, Hh, Hr, Hs, Hi, Hf. reflexivity.
Qed.

(** X13.  Whatever Premailer raises is contained: the cleaner is given
    the raw body, and the parse warning is the first message added. *)
Theorem premailer_failure_is_contained (alt : option Part) (d : Draft.t)
    (e : Py.exn) (m : list Py.message) :
  Draft.plain_message d = false ->
  Premailer_transform (Draft.body d) = Py.Raise e ->
  sanitize alt d m =
    match clean_html cleaner (Draft.body d) with
    | Py.Ok cleaned =>
        (m ++ [(Py.WARNING, parse_warning)],
         Py.Ok {| Draft.body := cleaned; Draft.charset := Draft.charset d;
                  Draft.plain_message := false |})
    | Py.Raise e' =>
        if Py.LxmlError_or_ValueError e'
        then (m ++ [(Py.WARNING, parse_warning); (Py.ERROR, invalid_html_error)],
              Py.Ok {| Draft.body := (fallback alt).1; Draft.charset := (fallback alt).2;
                       Draft.plain_message := true |})
        else (m ++ [(Py.WARNING, parse_warning)], Py.Raise e')
    end.
Proof.
  intros Hd He. rewrite (sanitize_html alt d m Hd).
  unfold inlined, inline_messages. rewrite He. reflexivity.
Qed.

(** X14.  The handler of the cleaning step catches nothing but
    [LxmlError] and [ValueError]: any other exception of the cleaner
    ends the render, after the warning of the Premailer step if there
    was one and without the error message. *)
Theorem other_cleaner_errors_escape (sender : string) (h : Part) (e : Py.exn)
    (m : list Py.message) :
  view_headers self !! "From" = Some sender ->
  find_body self (html (found_parts self)) (plain (found_parts self)) = Some false ->
  html (found_parts self) = Some h ->
  clean_html cleaner (inlined (body_data h)) = Py.Raise e ->
  Py.LxmlError_or_ValueError e = false ->
  get_context_data self m = (m ++ inline_messages (body_data h), Py.Raise e).
Proof.
  intros Hfrom Hfind Hhtml Hclean He.
  rewrite get_context_data_stages, (read_headers_from self sender Hfrom).
  rewrite (set_raw_body_html self h Hfind Hhtml).
  rewrite sanitize_html by reflexivity.
  cbn [Draft.body Draft.charset Draft.plain_message].
  rewrite Hclean, He. reflexivity.
Qed.

(** X15.  A context in HTML mode comes with no error message, and a
    render that adds the error message returns plain mode and does not
    ask about images; the error message is added at most once. *)
Theorem error_message_means_plain_mode (m m' : list Py.message) (ctx : Context) :
  get_context_data self m = (m', Py.Ok ctx) ->
  (plain_message ctx = false ->
   Py.emitted (Py.ERROR, invalid_html_error) m'
   = Py.emitted (Py.ERROR, invalid_html_error) m)
  /\ (Py.emitted (Py.ERROR, invalid_html_error) m'
      <> Py.emitted (Py.ERROR, invalid_html_error) m ->
      plain_message ctx = true /\ ask_images ctx = false)
  /\ (Py.emitted (Py.ERROR, invalid_html_error) m'
      = Py.emitted (Py.ERROR, invalid_html_error) m
      \/ Py.emitted (Py.ERROR, invalid_html_error) m'
         = S (Py.emitted (Py.ERROR, invalid_html_error) m)).
Proof.
  intros Hctx.
  apply get_context_data_inv in Hctx
    as (headers & raw & m1 & cleaned & shown & ask & final & text
        & _ & _ & Hs & Hi & Hf & _ & ->).
  apply filter_images_mode in Hf as [-> Hmode]. simpl. rewrite Hmode.
  assert (Hcases :
            (Py.emitted (Py.ERROR, invalid_html_error) m1
             = Py.emitted (Py.ERROR, invalid_html_error) m)
            \/ (Draft.plain_message cleaned = true
                /\ Py.emitted (Py.ERROR, invalid_html_error) m1
                   = S (Py.emitted (Py.ERROR, invalid_html_error) m))).
  { destruct (Draft.plain_message raw) eqn:Hraw.
    - rewrite sanitize_plain in Hs by exact Hraw. injection Hs as <- <-. left. reflexivity.
    - rewrite sanitize_html in Hs by exact Hraw.
      destruct (clean_html cleaner (inlined (Draft.body raw))) as [c | e].
      + injection Hs as <- <-. left.
        rewrite emitted_app, inline_messages_no_error. lia.
      + destruct (Py.LxmlError_or_ValueError e); [| discriminate].
        injection Hs as <- <-. right. split; [reflexivity |].
        rewrite !emitted_app, inline_messages_no_error.
        change (Py.emitted (Py.ERROR, invalid_html_error)
                  [(Py.ERROR, invalid_html_error)]) with 1%nat.
        lia. }
  assert (Hask : Draft.plain_message cleaned = true -> ask = false).
  { intros Hp. rewrite Hp in Hi. injection Hi as _ <-. reflexivity. }
  destruct Hcases as [Hsame | [Hplain Hmore]].
  - split; [intros _; exact Hsame |].
    split; [intros Hne; contradiction | left; exact Hsame].
  - rewrite Hplain. split; [discriminate |].
    split; [intros _; split; [reflexivity | apply Hask, Hplain] | right; exact Hmore].
Qed.

(** X16.  The flag [ask_images] of a context is set exactly when the
    context is in HTML mode, the user's [ask_images] preference is set,
    and the parameter [imgDisplay] is absent or an integer other
    than 1. *)
Theorem ask_flag_of_the_context (m m' : list Py.message) (ctx : Context) :
  get_context_data self m = (m', Py.Ok ctx) ->
  ask_images ctx = true
  <-> plain_message ctx = false
      /\ Profile.ask_images (userprofile (request self)) = true
      /\ one_shot_override self = Py.Ok false.
Proof.
  intros Hctx.
  apply get_context_data_inv in Hctx
    as (headers & raw & m1 & cleaned & shown & ask & final & text
        & _ & _ & _ & Hi & Hf & _ & ->).
  apply filter_images_mode in Hf as [_ Hmode]. simpl. rewrite Hmode.
  unfold image_decision in Hi.
  destruct (Draft.plain_message cleaned).
  - injection Hi as _ <-. split; [discriminate | intros [? _]; discriminate].
  - destruct (one_shot_override self) as [[|] | e]; simpl in Hi; [| | discriminate].
    + injection Hi as _ <-. split; [discriminate | intros (_ & _ & ?); discriminate].
    + destruct (Profile.ask_images (userprofile (request self)));
        injection Hi as _ <-; split; try discriminate; auto.
      intros (_ & ? & _). discriminate.
Qed.

End Rendering.

(** ** The body that is returned *)

Section Body.

Context `{L : Libraries}.
Variable self : EmailView.

(** X17.  The HTML body with images shown: when the HTML part is the
    body, the cleaner accepts it and images are shown, the body returned
    is the decoding, with the HTML part's charset, of what the cleaner
    made of what Premailer made of the part's bytes; the image step does
    not run, the mode is HTML and nothing is asked. *)
Theorem html_body_with_images (sender : string) (h : Part) (cleaned : string)
    (ask : bool) (m : list Py.message) :
  view_headers self !! "From" = Some sender ->
  find_body self (html (found_parts self)) (plain (found_parts self)) = Some false ->
  html (found_parts self) = Some h ->
  clean_html cleaner (inlined (body_data h)) = Py.Ok cleaned ->
  image_decision self false = Py.Ok (true, ask) ->
  let headers := (default "(No subject)" (view_headers self !! "Subject"), sender) in
  ask = false
  /\ get_context_data self m
     = (m ++ inline_messages (body_data h),
        Py.and_then (unicode_decode cleaned (charset h))
          (fun text => Py.Ok (context_of self headers text (charset h) false false))).
Proof.
  intros Hfrom Hfind Hhtml Hclean Hdecision headers.
  assert (Hask : ask = false).
  { unfold image_decision in Hdecision.
    destruct (one_shot_override self) as [[|] | e]; simpl in Hdecision;
      [injection Hdecision as <-; reflexivity | | discriminate].
    destruct (Profile.ask_images _); [discriminate |].
    injection Hdecision as _ <-. reflexivity. }
  split; [exact Hask |]. subst ask.
  rewrite get_context_data_stages, (read_headers_from self sender Hfrom).
  rewrite (set_raw_body_html self h Hfind Hhtml).
  rewrite sanitize_html by reflexivity.
  cbn [Draft.body Draft.charset Draft.plain_message].
  rewrite Hclean.
  cbn [Draft.body Draft.charset Draft.plain_message].
  rewrite Hdecision, filter_images_shown. reflexivity.
Qed.

(** X18.  The HTML body with images hidden: when moreover images are
    not shown and the cleaned body parses and serialises, the body
    returned is the decoding of the serialised tree from which the loop
    has removed the image sources; charset and mode are unchanged. *)
Theorem html_body_without_image_sources (sender : string) (h : Part)
    (cleaned out : string) (tree : Lxml.element) (ask : bool) (m : list Py.message) :
  view_headers self !! "From" = Some sender ->
  find_body self (html (found_parts self)) (plain (found_parts self)) = Some false ->
  html (found_parts self) = Some h ->
  clean_html cleaner (inlined (body_data h)) = Py.Ok cleaned ->
  image_decision self false = Py.Ok (false, ask) ->
  fromstring cleaned = Py.Ok tree ->
  tostring (remove_sources tree) = Py.Ok out ->
  let headers := (default "(No subject)" (view_headers self !! "Subject"), sender) in
  get_context_data self m
  = (m ++ inline_messages (body_data h),
     Py.and_then (unicode_decode out (charset h))
       (fun text => Py.Ok (context_of self headers text (charset h) false ask))).
Proof.
  intros Hfrom Hfind Hhtml Hclean Hdecision Hparse Hser headers.
  rewrite get_context_data_stages, (read_headers_from self sender Hfrom).
  rewrite (set_raw_body_html self h Hfind Hhtml).
  rewrite sanitize_html by reflexivity.
  cbn [Draft.body Draft.charset Draft.plain_message].
  rewrite Hclean.
  cbn [Draft.body Draft.charset Draft.plain_message].
  rewrite Hdecision, filter_images_hidden.
  cbn [Draft.body Draft.charset Draft.plain_message].
  rewrite Hparse. cbn [Py.and_then]. rewrite Hser. reflexivity.
Qed.

(** X19.  A context is returned in HTML mode only when the HTML part
    was selected and the cleaner accepted it, and its body is then the
    decoding, with the charset of the context, of one of three byte
    strings: the cleaner's output when images are shown; the serialised
    tree without its image sources when they are hidden; or, when the
    image step raises an [LxmlError] or a [ValueError], the fallback of
    its handler, which is the plain part's bytes as they are or the
    empty string, with the plain part's charset or utf-8. *)
Theorem html_mode_means_cleaned (m m' : list Py.message) (ctx : Context) :
  get_context_data self m = (m', Py.Ok ctx) ->
  plain_message ctx = false ->
  exists h cleaned bytes,
    html (found_parts self) = Some h
    /\ find_body self (html (found_parts self)) (plain (found_parts self)) = Some false
    /\ clean_html cleaner (inlined (body_data h)) = Py.Ok cleaned
    /\ unicode_decode bytes (EmailDict.charset (email ctx))
       = Py.Ok (EmailDict.body (email ctx))
    /\ ((bytes = cleaned
         /\ EmailDict.charset (email ctx) = charset h
         /\ image_decision self false = Py.Ok (true, ask_images ctx))
        \/ (exists tree,
              image_decision self false = Py.Ok (false, ask_images ctx)
              /\ fromstring cleaned = Py.Ok tree
              /\ tostring (remove_sources tree) = Py.Ok bytes
              /\ EmailDict.charset (email ctx) = charset h)
        \/ (exists e,
              image_decision self false = Py.Ok (false, ask_images ctx)
              /\ Py.and_then (fromstring cleaned)
                   (fun tree => tostring (remove_sources tree)) = Py.Raise e
              /\ Py.LxmlError_or_ValueError e = true
              /\ (bytes, EmailDict.charset (email ctx))
                 = fallback (plain (found_parts self)))).
Proof.
  intros Hctx Hmode.
  apply get_context_data_inv in Hctx
    as (headers & raw & m1 & cleaned & shown & ask & final & text
        & _ & Hraw & Hs & Hi & Hf & Hd & ->).
  pose proof (filter_images_mode _ _ _ _ _ _ Hf) as [_ Hsame]. simpl in Hmode.
  rewrite Hsame in Hmode.
  destruct (Draft.plain_message raw) eqn:Hr.
  { rewrite sanitize_plain in Hs by exact Hr. injection Hs as _ <-. congruence. }
  pose proof (proj1 (set_raw_body_mode self _ _ Hraw) Hr) as Hfind.
  destruct (find_body_html_exists self _ _ Hfind) as [h Hh].
  rewrite (set_raw_body_html self h Hfind Hh) in Hraw. injection Hraw as <-.
  rewrite sanitize_html in Hs by reflexivity.
  cbn [Draft.body Draft.charset Draft.plain_message] in Hs.
  destruct (clean_html cleaner (inlined (body_data h))) as [c | e] eqn:Hc.
  2:{ destruct (Py.LxmlError_or_ValueError e); [| discriminate].
      injection Hs as _ <-. discriminate. }
  injection Hs as _ <-.
  cbn [Draft.body Draft.charset Draft.plain_message] in *.
  exists h, c, (Draft.body final).
  split; [exact Hh |]. split; [exact Hfind |]. split; [exact Hc |].
  split; [exact Hd |].
  cbn [context_of email ask_images EmailDict.charset EmailDict.body].
  destruct shown.
  - rewrite filter_images_shown in Hf. injection Hf as _ <-.
    left. repeat split. exact Hi.
  - rewrite filter_images_hidden in Hf.
    cbn [Draft.body Draft.charset Draft.plain_message] in Hf.
    unfold Py.and_then in Hf at 1.
    destruct (fromstring c) as [tree | e] eqn:Hp.
    + destruct (tostring (remove_sources tree)) as [out | e] eqn:Ht.
      * injection Hf as _ <-. right. left. exists tree. repeat split; assumption.
      * destruct (Py.LxmlError_or_ValueError e) eqn:He; [| discriminate].
        injection Hf as _ <-. right. right. exists e.
        split; [exact Hi |]. split; [exact Ht |].
        split; [exact He |]. destruct (fallback _); reflexivity.
    + destruct (Py.LxmlError_or_ValueError e) eqn:He; [| discriminate].
      injection Hf as _ <-. right. right. exists e.
      split; [exact Hi |]. split; [reflexivity |].
      split; [exact He |]. destruct (fallback _); reflexivity.
Qed.

Lemma declared_charset_well_formed (c : string) :
  c ∈ "utf-8" :: declared_charsets self ->
  c <> EmptyString /\ all_chars HeaderParams.is_value c = true.
Proof.
  intros [-> | Hin]%elem_of_cons; [split; [discriminate | reflexivity] |].
  unfold declared_charsets in Hin.
  apply list_elem_of_fmap in Hin as ([p head] & -> & Hin).
  destruct (iterate_parts_invariant (parts (object self))) as (Hfound & _ & _).
  destruct (Hfound _ Hin) as (part & _ & Hc).
  apply classify_well_formed in Hc. simpl. tauto.
Qed.

(** X20.  The charset of a context is never empty and holds no quote,
    no semicolon and no equals sign, whatever the headers of the parts
    say. *)
Theorem returned_charset_well_formed (m m' : list Py.message) (ctx : Context) :
  get_context_data self m = (m', Py.Ok ctx) ->
  EmailDict.charset (email ctx) <> EmptyString
  /\ all_chars HeaderParams.is_value (EmailDict.charset (email ctx)) = true.
Proof.
  intros Hctx.
  apply get_context_data_inv in Hctx
    as (headers & raw & m1 & cleaned & shown & ask & final & text
        & _ & Hraw & Hs & _ & Hf & _ & ->).
  apply declared_charset_well_formed. simpl.
  pose proof (raw_charset_declared self raw Hraw) as Hr.
  pose proof (fallback_charset_declared self) as Hfb.
  apply sanitize_charset in Hs. apply filter_images_charset in Hf.
  destruct Hf as [-> | ->]; [| exact Hfb].
  destruct Hs as [-> | ->]; [exact Hr | exact Hfb].
Qed.

End Body.

(** X21.  A render that does not select the HTML part calls neither
    Premailer nor the cleaner nor the parser nor [int]: with the same
    decoder, any two sets of libraries give the same result, so that a
    malformed [imgDisplay] cannot break a plain-text message. *)
Theorem plain_render_ignores_the_html_libraries (L1 L2 : Libraries)
    (self : EmailView) (m : list Py.message) :
  (forall body charset,
      @unicode_decode L1 body charset = @unicode_decode L2 body charset) ->
  find_body self (html (found_parts self)) (plain (found_parts self)) <> Some false ->
  @get_context_data L1 self m = @get_context_data L2 self m.
Proof.
  intros Hdecode Hfind.
  destruct (read_headers self) as [headers | e] eqn:Hh.
  2:{ rewrite !get_context_data_stages, Hh. reflexivity. }
  destruct (set_raw_body_total self (found_parts self)) as [raw Hraw].
  assert (Hmode : Draft.plain_message raw = true).
  { destruct (Draft.plain_message raw) eqn:Hr; [reflexivity |].
    exfalso. apply Hfind. exact (proj1 (set_raw_body_mode self _ _ Hraw) Hr). }
  rewrite (@get_context_data_plain L1 self headers raw m Hh Hraw Hmode).
  rewrite (@get_context_data_plain L2 self headers raw m Hh Hraw Hmode).
  rewrite Hdecode. reflexivity.
Qed.

(** ** The loop over the images *)

Section Images.

Lemma element_induction (P : Lxml.element -> Prop) :
  (forall t a x y cs, Forall P cs -> P (Lxml.Element t a x y cs)) ->
  forall e, P e.
Proof.
  intros H. fix IH 1. intros [t a x y cs]. apply H.
  induction cs as [| c cs IHcs]; constructor; [apply IH | exact IHcs].
Qed.

Lemma below_children (e : Lxml.element) :
  below e = flat_map (fun c => c :: below c) (Lxml.children e).
Proof.
  destruct e as [t a x y cs]. simpl.
  induction cs as [| c cs IH]; [reflexivity |]. simpl. rewrite IH. reflexivity.
Qed.

Lemma del_src_lookup (attrib : gmap string string) (k : string) :
  del_src attrib !! k = if decide (k = "src") then None else attrib !! k.
Proof.
  unfold del_src. destruct (attrib !! "src") as [v |] eqn:Hsrc.
  - rewrite lookup_delete. destruct (decide ("src" = k)) as [<- | Hne].
    + rewrite decide_True by reflexivity. reflexivity.
    + rewrite decide_False by congruence. reflexivity.
  - destruct (decide (k = "src")) as [-> | Hne]; [exact Hsrc | reflexivity].
Qed.

Lemma del_src_twice (attrib : gmap string string) :
  del_src (del_src attrib) = del_src attrib.
Proof.
  unfold del_src at 1. rewrite del_src_lookup, decide_True by reflexivity. reflexivity.
Qed.

Lemma below_del_img_src (e : Lxml.element) :
  below (del_img_src e) = map del_img_src (below e).
Proof.
  induction e as [t a x y cs IH] using element_induction.
  rewrite !below_children. simpl.
  induction IH as [| c cs Hc _ IHcs]; [reflexivity |].
  simpl. rewrite Hc, IHcs, map_app. reflexivity.
Qed.

Lemma below_remove_sources (tree : Lxml.element) :
  below (remove_sources tree) = map del_img_src (below tree).
Proof.
  rewrite !below_children. destruct tree as [t a x y cs]. simpl.
  induction cs as [| c cs IH]; [reflexivity |].
  simpl. rewrite below_del_img_src, IH, map_app. reflexivity.
Qed.

Lemma shallow_del_img_src (e : Lxml.element) :
  shallow (del_img_src e) = shallow (without_src e).
Proof. destruct e. reflexivity. Qed.

(** X22.  After the loop no [img] element below the root has a [src]
    attribute. *)
Theorem no_image_source_left (tree e : Lxml.element) :
  In e (findall_img (remove_sources tree)) ->
  Lxml.attrib e !! "src" = None.
Proof.
  unfold findall_img. intros [Hin Himg]%List.filter_In.
  rewrite below_remove_sources in Hin.
  apply List.in_map_iff in Hin as (e0 & <- & _).
  destruct e0 as [t a x y cs]. simpl in *. rewrite Himg.
  rewrite del_src_lookup, decide_True by reflexivity. reflexivity.
Qed.

(** X23.  The loop changes nothing else.  The root keeps its tag, its
    attributes, its text and its tail, even when it is an [img] with a
    [src].  Below the root the elements are the same in number and
    order, each with its tag, text and tail, and with its attributes
    except that an [img] has lost [src] and only [src]. *)
Theorem only_image_sources_removed (tree : Lxml.element) :
  shallow (remove_sources tree) = shallow tree
  /\ map shallow (below (remove_sources tree))
     = map (fun e => shallow (without_src e)) (below tree)
  /\ forall e k,
       Lxml.attrib (without_src e) !! k
       = if String.eqb (Lxml.tag e) "img" && bool_decide (k = "src") then None
         else Lxml.attrib e !! k.
Proof.
  split; [destruct tree; reflexivity |]. split.
  - rewrite below_remove_sources, map_map.
    apply map_ext. intros e. apply shallow_del_img_src.
  - intros e k. unfold without_src. simpl.
    destruct (String.eqb (Lxml.tag e) "img"); [| reflexivity]. simpl.
    rewrite del_src_lookup. destruct (decide (k = "src")) as [Hk | Hk].
    + rewrite bool_decide_eq_true_2 by exact Hk. reflexivity.
    + rewrite bool_decide_eq_false_2 by exact Hk. reflexivity.
Qed.

Lemma del_img_src_twice (e : Lxml.element) :
  del_img_src (del_img_src e) = del_img_src e.
Proof.
  induction e as [t a x y cs IH] using element_induction. simpl. f_equal.
  - destruct (String.eqb t "img"); [apply del_src_twice | reflexivity].
  - rewrite map_map. apply map_ext_Forall. exact IH.
Qed.

(** X24.  Running the loop again on its result changes nothing. *)
Theorem remove_sources_twice (tree : Lxml.element) :
  remove_sources (remove_sources tree) = remove_sources tree.
Proof.
  destruct tree as [t a x y cs]. unfold remove_sources. simpl. f_equal.
  rewrite map_map. apply map_ext. intros c. apply del_img_src_twice.
Qed.

End Images.

(** ** [get_object], [post] and [get] *)

Section Dispatching.

Context `{B : Builtins}.
Variable d : Dispatch.

Lemma get_object_inv (table : Table) (pk : Z) (r : Store.row) :
  get_object d table = Http.Done (pk, r) ->
  exists text inbox domain,
    kwargs d !! "id" = Some text
    /\ int16 text = Py.Ok pk
    /\ kwargs d !! "inbox" = Some inbox
    /\ kwargs d !! "domain" = Some domain
    /\ table !! pk = Some r
    /\ visible d inbox domain r = true.
Proof.
  unfold get_object, get_queryset, Py.getitem.
  destruct (kwargs d !! "id") as [text |] eqn:Hid; [| discriminate]. simpl.
  destruct (int16 text) as [pk' | e] eqn:Hint; [| discriminate]. simpl.
  destruct (kwargs d !! "inbox") as [inbox |] eqn:Hinbox; [| discriminate]. simpl.
  destruct (kwargs d !! "domain") as [domain |] eqn:Hdomain; [| discriminate]. simpl.
  destruct (filter _ table !! pk') as [r' |] eqn:Hlook; [| discriminate].
  intros [= -> ->].
  apply map_lookup_filter_Some in Hlook as [Hrow Hvis].
  exists text, inbox, domain. repeat split; assumption.
Qed.

Lemma get_object_intro (table : Table) (pk : Z) (r : Store.row)
    (text inbox domain : string) :
  kwargs d !! "id" = Some text ->
  int16 text = Py.Ok pk ->
  kwargs d !! "inbox" = Some inbox ->
  kwargs d !! "domain" = Some domain ->
  table !! pk = Some r ->
  visible d inbox domain r = true ->
  get_object d table = Http.Done (pk, r).
Proof.
  intros Hid Hint Hinbox Hdomain Hrow Hvis.
  unfold get_object, get_queryset, Py.getitem.
  rewrite Hid. simpl. rewrite Hint. simpl. rewrite Hinbox. simpl.
  rewrite Hdomain. simpl.
  rewrite (map_lookup_filter_Some_2 _ table pk r Hrow Hvis). reflexivity.
Qed.

Lemma visible_spec (inbox domain : string) (r : Store.row) :
  visible d inbox domain r = true
  <-> (Store.user r = viewer d /\ Store.address r = inbox
       /\ Store.domain r = domain /\ "deleted" ∉ Store.flags r).
Proof.
  unfold visible. rewrite !andb_true_iff, !String.eqb_eq, negb_true_iff.
  rewrite bool_decide_eq_false. tauto.
Qed.

(** X25.  [get_object] only ever returns a message of the requesting
    user, in the inbox and the domain named in the URL, that is not
    flagged as deleted, and whose primary key is the id of the URL read
    in base 16. *)
Theorem get_object_is_the_viewers_own (table : Table) (pk : Z) (r : Store.row) :
  get_object d table = Http.Done (pk, r) ->
  table !! pk = Some r
  /\ Store.user r = viewer d
  /\ kwargs d !! "inbox" = Some (Store.address r)
  /\ kwargs d !! "domain" = Some (Store.domain r)
  /\ ("deleted" ∉ Store.flags r)
  /\ exists text, kwargs d !! "id" = Some text /\ int16 text = Py.Ok pk.
Proof.
  intros H. apply get_object_inv in H
    as (text & inbox & domain & Hid & Hint & Hinbox & Hdomain & Hrow & Hvis).
  apply visible_spec in Hvis as (Huser & <- & <- & Hdel).
  repeat split; try assumption. exists text. split; assumption.
Qed.

Lemma toggle_elem (flag f : string) (fs : gset string) :
  f ∈ toggle flag fs <-> (f <> flag /\ f ∈ fs) \/ (f = flag /\ flag ∉ fs).
Proof.
  unfold toggle. case_bool_decide as Hin.
  - rewrite elem_of_difference, elem_of_singleton. split.
    + intros [Hf Hne]. left. split; assumption.
    + intros [[Hne Hf] | [-> Hno]]; [split; assumption | contradiction].
  - rewrite elem_of_union, elem_of_singleton. split.
    + intros [Hf | ->]; [left; split; [congruence | exact Hf] | right; split; auto].
    + intros [[_ Hf] | [-> _]]; auto.
Qed.

Lemma toggle_twice (flag : string) (fs : gset string) :
  toggle flag (toggle flag fs) = fs.
Proof.
  apply set_eq. intros f. rewrite !toggle_elem.
  destruct (decide (f = flag)) as [-> | Hne], (decide (flag ∈ fs)); split; tauto.
Qed.

Lemma with_flags_same (r : Store.row) : Store.with_flags r (Store.flags r) = r.
Proof. destruct r. reflexivity. Qed.

Lemma with_flags_twice (r : Store.row) (fs fs' : gset string) :
  Store.with_flags (Store.with_flags r fs) fs' = Store.with_flags r fs'.
Proof. reflexivity. Qed.

Lemma get_object_after_save (table : Table) (pk : Z) (r : Store.row)
    (fs : gset string) :
  get_object d table = Http.Done (pk, r) ->
  "deleted" ∉ fs ->
  get_object d (<[pk := Store.with_flags r fs]> table)
  = Http.Done (pk, Store.with_flags r fs).
Proof.
  intros Hget Hfs. apply get_object_inv in Hget
    as (text & inbox & domain & Hid & Hint & Hinbox & Hdomain & Hrow & Hvis).
  apply (get_object_intro _ pk _ text inbox domain); try assumption.
  - apply lookup_insert_eq.
  - apply visible_spec in Hvis as (Hu & Ha & Hd & _).
    apply visible_spec. simpl. repeat split; assumption.
Qed.

(** X26.  [post] redirects to the path of the request.  It touches no
    message but the one [get_object] returns, and of this one only the
    flag [important], which it inverts when the form has the key
    [important-toggle]; without the key the table is left as it is. *)
Theorem post_toggles_one_flag (table table' : Table) (url : string) :
  post d table = Http.Done (table', url) ->
  url = path d
  /\ exists pk r r',
       get_object d table = Http.Done (pk, r)
       /\ (forall k, k <> pk -> table' !! k = table !! k)
       /\ table' !! pk = Some r'
       /\ Store.message r' = Store.message r /\ Store.user r' = Store.user r
       /\ Store.address r' = Store.address r /\ Store.domain r' = Store.domain r
       /\ (forall f, f <> "important" -> (f ∈ Store.flags r' <-> f ∈ Store.flags r))
       /\ (is_Some (POST d !! "important-toggle") ->
           ("important" ∈ Store.flags r' <-> "important" ∉ Store.flags r))
       /\ (POST d !! "important-toggle" = None -> table' = table).
Proof.
  unfold post. destruct (get_object d table) as [[pk r] | | e] eqn:Hget;
    simpl; [| discriminate | discriminate].
  intros [= <- <-]. split; [reflexivity |].
  pose proof (get_object_inv _ _ _ Hget) as (_ & _ & _ & _ & _ & _ & _ & Hrow & _).
  case_bool_decide as Hkey.
  - exists pk, r, (Store.with_flags r (toggle "important" (Store.flags r))).
    split; [reflexivity |]. split; [intros k Hk; apply lookup_insert_ne; congruence |].
    split; [apply lookup_insert_eq |]. cbn [Store.with_flags Store.message Store.user
      Store.address Store.domain Store.flags].
    do 4 (split; [reflexivity |]).
    split; [| split].
    + intros f Hne. rewrite toggle_elem. tauto.
    + intros _. rewrite toggle_elem. split.
      * intros [[Hf _] | [_ Hf]]; [congruence | exact Hf].
      * intros Hf. right. split; [reflexivity | exact Hf].
    + intros Hnone. rewrite Hnone in Hkey. destruct Hkey as [? Hkey]. discriminate.
  - exists pk, r, r. split; [reflexivity |]. split; [reflexivity |].
    split; [exact Hrow |]. do 4 (split; [reflexivity |]).
    split; [| split].
    + intros f _. reflexivity.
    + intros Hsome. contradiction.
    + intros _. reflexivity.
Qed.

(** X27.  Posting the same form twice puts the table back as it was. *)
Theorem post_twice_restores (table table' : Table) (url : string) :
  post d table = Http.Done (table', url) ->
  post d table' = Http.Done (table, url).
Proof.
  unfold post. destruct (get_object d table) as [[pk r] | | e] eqn:Hget;
    simpl; [| discriminate | discriminate].
  intros [= <- <-].
  pose proof (get_object_inv _ _ _ Hget)
    as (text & inbox & domain & _ & _ & _ & _ & Hrow & Hvis).
  apply visible_spec in Hvis as (_ & _ & _ & Hdel).
  case_bool_decide as Hkey.
  - rewrite (get_object_after_save table pk r _ Hget).
    + destruct r as [msg u a dm fs]. simpl.
      rewrite toggle_twice, insert_insert_eq.
      rewrite (insert_id table pk _ Hrow). reflexivity.
    + intros Hin. apply toggle_elem in Hin as [[_ Hin] | [Hin _]];
        [contradiction | discriminate].
  - rewrite Hget. simpl. reflexivity.
Qed.

End Dispatching.

Section Reading.

Context `{L : Libraries} `{B : Builtins}.
Variable d : Dispatch.

(** X28.  A [get] that returns marks exactly the message it shows: the
    context is the one [get_context_data] gives for the object of
    [get_object], that message gains the flags [read] and [seen] and
    loses none, and nothing else in the table changes. *)
Theorem get_marks_the_message_read (table table' : Table) (m m' : list Py.message)
    (ctx : Context) :
  get d table m = (m', table', Http.Done ctx) ->
  exists pk r r',
    get_object d table = Http.Done (pk, r)
    /\ get_context_data (view_of d r) m = (m', Py.Ok ctx)
    /\ (forall k, k <> pk -> table' !! k = table !! k)
    /\ table' !! pk = Some r'
    /\ Store.message r' = Store.message r /\ Store.user r' = Store.user r
    /\ Store.address r' = Store.address r /\ Store.domain r' = Store.domain r
    /\ forall f, f ∈ Store.flags r' <-> f ∈ Store.flags r \/ f = "read" \/ f = "seen".
Proof.
  unfold get. destruct (get_object d table) as [[pk r] | | e] eqn:Hget;
    [| discriminate | discriminate].
  destruct (get_context_data (view_of d r) m) as [m1 [ctx1 | e]] eqn:Hctx;
    [| discriminate].
  intros [= <- <- <-].
  exists pk, r, (Store.with_flags r (Store.flags r ∪ {[ "read" ]} ∪ {[ "seen" ]})).
  split; [reflexivity |]. split; [exact Hctx |].
  split; [intros k Hk; apply lookup_insert_ne; congruence |].
  split; [apply lookup_insert_eq |].
  cbn [Store.with_flags Store.message Store.user Store.address Store.domain Store.flags].
  do 4 (split; [reflexivity |]).
  intros f. rewrite !elem_of_union, !elem_of_singleton. tauto.
Qed.

(** X29.  A [get] that does not return a context saves nothing: after a
    bad id, a message that is not the viewer's, or a render that raises
    (a message without From header, say), the table is as before and the
    message is not marked read. *)
Theorem failed_get_saves_nothing (table table' : Table) (m m' : list Py.message)
    (out : Http.outcome Context) :
  get d table m = (m', table', out) ->
  (forall ctx, out <> Http.Done ctx) ->
  table' = table.
Proof.
  unfold get. destruct (get_object d table) as [[pk r] | | e];
    [| intros [= _ <- _]; reflexivity | intros [= _ <- _]; reflexivity].
  destruct (get_context_data (view_of d r) m) as [m1 [ctx1 | e]].
  - intros [= _ _ <-] Hno. exfalso. exact (Hno ctx1 eq_refl).
  - intros [= _ <- _] _. reflexivity.
Qed.

(** X30.  Showing a message again changes nothing more: a second [get]
    on the table the first one left returns the same context and leaves
    the same table. *)
Theorem get_twice_is_get_once (table table' : Table) (m m' : list Py.message)
    (ctx : Context) :
  get d table m = (m', table', Http.Done ctx) ->
  get d table' m = (m', table', Http.Done ctx).
Proof.
  unfold get. destruct (get_object d table) as [[pk r] | | e] eqn:Hget;
    [| discriminate | discriminate].
  destruct (get_context_data (view_of d r) m) as [m1 [ctx1 | e]] eqn:Hctx;
    [| discriminate].
  intros [= <- <- <-].
  pose proof (get_object_inv d _ _ _ Hget)
    as (text & inbox & domain & _ & _ & _ & _ & Hrow & Hvis).
  apply visible_spec in Hvis as (_ & _ & _ & Hdel).
  assert (Hkept : "deleted" ∉ Store.flags r ∪ {[ "read" ]} ∪ {[ "seen" ]}).
  { rewrite !elem_of_union, !elem_of_singleton. intros [[? | ?] | ?];
      [contradiction | discriminate | discriminate]. }
  rewrite (get_object_after_save d table pk r _ Hget Hkept).
  change (view_of d (Store.with_flags r (Store.flags r ∪ {[ "read" ]} ∪ {[ "seen" ]})))
    with (view_of d r).
  rewrite Hctx. rewrite insert_insert_eq. simpl.
  replace (Store.flags r ∪ {[ "read" ]} ∪ {[ "seen" ]} ∪ {[ "read" ]} ∪ {[ "seen" ]})
    with (Store.flags r ∪ {[ "read" ]} ∪ {[ "seen" ]}); [reflexivity |].
  apply set_eq. intros f. rewrite !elem_of_union, !elem_of_singleton. tauto.
Qed.

End Reading.

(** ** The properties on concrete messages *)

Lemma findall_pairs_well_formed_witness :
  ("charset", "utf-8") ∈ HeaderParams.findall " charset=utf-8"
  /\ "utf-8" <> EmptyString
  /\ all_chars HeaderParams.is_value "utf-8" = true.
Proof.
  assert (Hin : ("charset", "utf-8") ∈ HeaderParams.findall " charset=utf-8")
    by (vm_compute; left).
  split; [exact Hin |].
  destruct (findall_pairs_well_formed _ _ _ Hin) as (_ & _ & Hne & Hv).
  split; [exact Hne | exact Hv].
Defined.

Lemma findall_write_params_witness :
  Forall (fun w => well_written w = true) Cases.written
  /\ HeaderParams.findall " charset=utf-8; name='a b.txt';"
     = [("charset", "utf-8"); ("name", "a b.txt")].
Proof.
  assert (Hw : Forall (fun w => well_written w = true) Cases.written)
    by (repeat constructor).
  split; [exact Hw |]. exact (findall_write_params Cases.written Hw).
Defined.

Lemma findall_without_equals_witness :
  all_chars (is_not "="%char) "attachment" = true
  /\ HeaderParams.findall "attachment" = [].
Proof.
  split; [reflexivity |]. apply findall_without_equals. reflexivity.
Defined.

Lemma bare_part_defaults_witness :
  header Cases.bare "Content-Type" = EmptyString
  /\ parameters Cases.bare = ∅.
Proof.
  split; [vm_compute; reflexivity |].
  apply (bare_part_defaults Cases.bare); vm_compute; reflexivity.
Defined.

Lemma find_body_selects_what_exists_witness :
  find_body (Sample.view Sample.alternative ∅ false true false)
    (Some Sample.html_kept) (Some Sample.plain_kept) = Some true
  /\ exists part, Some Sample.plain_kept = Some part.
Proof.
  assert (H : find_body (Sample.view Sample.alternative ∅ false true false)
                (Some Sample.html_kept) (Some Sample.plain_kept) = Some true)
    by reflexivity.
  split; [exact H |].
  exact (proj1 (find_body_selects_what_exists _ _ _) H).
Defined.

Lemma preference_matters_for_siblings_only_witness :
  find_body Sample.alternative_view (Some Sample.late_html) (Some Sample.early_plain)
  = find_body (Sample.view Sample.alternative ∅ false true false)
      (Some Sample.late_html) (Some Sample.early_plain).
Proof.
  apply preference_matters_for_siblings_only. right.
  intros (a & b & [= <-] & [= <-] & Heq). vm_compute in Heq. discriminate.
Defined.

Lemma premailer_failure_is_contained_witness :
  @sanitize Cases.broken_premailer None
    {| Draft.body := "<p>hi</p>"; Draft.charset := "utf-8";
       Draft.plain_message := false |} []
  = ([(Py.WARNING, parse_warning)],
     Py.Ok {| Draft.body := "<p>hi</p>"; Draft.charset := "utf-8";
              Draft.plain_message := false |}).
Proof.
  rewrite (@premailer_failure_is_contained Cases.broken_premailer None
             {| Draft.body := "<p>hi</p>"; Draft.charset := "utf-8";
                Draft.plain_message := false |}
             Py.OtherException [] eq_refl eq_refl).
  reflexivity.
Defined.

Lemma other_cleaner_errors_escape_witness :
  @get_context_data Cases.strict_cleaner Sample.alternative_view []
  = ([], Py.Raise Py.TypeError).
Proof.
  assert (Hfrom : view_headers Sample.alternative_view !! "From" = Some "a@example.com")
    by (vm_compute; reflexivity).
  assert (Hfind : find_body Sample.alternative_view
                    (html (found_parts Sample.alternative_view))
                    (plain (found_parts Sample.alternative_view)) = Some false)
    by (vm_compute; reflexivity).
  assert (Hhtml : html (found_parts Sample.alternative_view) = Some Sample.html_kept)
    by (vm_compute; reflexivity).
  rewrite (@other_cleaner_errors_escape Cases.strict_cleaner Sample.alternative_view
             "a@example.com" Sample.html_kept Py.TypeError [] Hfrom Hfind Hhtml
             eq_refl eq_refl).
  reflexivity.
Defined.

Lemma error_message_means_plain_mode_witness :
  plain_message
    (context_of Sample.garbled_view ("Hello", "a@example.com")
       [104%N; 105%N] "us-ascii" true false) = true
  /\ ask_images
       (context_of Sample.garbled_view ("Hello", "a@example.com")
          [104%N; 105%N] "us-ascii" true false) = false.
Proof.
  assert (Hrun : @get_context_data Sample.libraries Sample.garbled_view []
                 = ([(Py.ERROR, invalid_html_error)],
                    Py.Ok (context_of Sample.garbled_view ("Hello", "a@example.com")
                             [104%N; 105%N] "us-ascii" true false)))
    by (vm_compute; reflexivity).
  apply (proj1 (proj2 (@error_message_means_plain_mode Sample.libraries
                         Sample.garbled_view _ _ _ Hrun))).
  vm_compute. discriminate.
Defined.

Lemma ask_flag_of_the_context_witness :
  Profile.ask_images (userprofile (request Sample.alternative_view)) = true
  /\ @one_shot_override Sample.libraries Sample.alternative_view = Py.Ok false.
Proof.
  assert (Hrun : @get_context_data Sample.libraries Sample.alternative_view []
                 = ([], Py.Ok (context_of Sample.alternative_view
                                 ("Hello", "a@example.com")
                                 [60%N; 112%N; 62%N; 104%N; 105%N; 60%N; 47%N; 112%N; 62%N]
                                 "utf-8" false true)))
    by (vm_compute; reflexivity).
  apply (proj1 (@ask_flag_of_the_context Sample.libraries Sample.alternative_view
                  _ _ _ Hrun)).
  reflexivity.
Defined.

Lemma html_body_with_images_witness :
  @image_decision Sample.libraries (Sample.queried_view "1") false = Py.Ok (true, false)
  /\ @get_context_data Sample.libraries (Sample.queried_view "1") []
     = ([], Py.Ok (context_of (Sample.queried_view "1") ("Hello", "a@example.com")
                     [60%N; 112%N; 62%N; 104%N; 105%N; 60%N; 47%N; 112%N; 62%N]
                     "utf-8" false false)).
Proof.
  assert (Hdecision : @image_decision Sample.libraries (Sample.queried_view "1") false
                      = Py.Ok (true, false)) by (vm_compute; reflexivity).
  split; [exact Hdecision |].
  assert (Hfrom : view_headers (Sample.queried_view "1") !! "From" = Some "a@example.com")
    by (vm_compute; reflexivity).
  assert (Hfind : find_body (Sample.queried_view "1")
                    (html (found_parts (Sample.queried_view "1")))
                    (plain (found_parts (Sample.queried_view "1"))) = Some false)
    by (vm_compute; reflexivity).
  assert (Hhtml : html (found_parts (Sample.queried_view "1")) = Some Sample.html_kept)
    by (vm_compute; reflexivity).
  destruct (@html_body_with_images Sample.libraries (Sample.queried_view "1")
              "a@example.com" Sample.html_kept "<p>hi</p>" false []
              Hfrom Hfind Hhtml eq_refl Hdecision) as [_ Heq].
  rewrite Heq. vm_compute. reflexivity.
Defined.

Lemma html_body_without_image_sources_witness :
  @image_decision Sample.libraries Sample.alternative_view false = Py.Ok (false, true)
  /\ @get_context_data Sample.libraries Sample.alternative_view []
     = ([], Py.Ok (context_of Sample.alternative_view ("Hello", "a@example.com")
                     [60%N; 112%N; 62%N; 104%N; 105%N; 60%N; 47%N; 112%N; 62%N]
                     "utf-8" false true)).
Proof.
  assert (Hdecision : @image_decision Sample.libraries Sample.alternative_view false
                      = Py.Ok (false, true)) by (vm_compute; reflexivity).
  split; [exact Hdecision |].
  assert (Hfrom : view_headers Sample.alternative_view !! "From" = Some "a@example.com")
    by (vm_compute; reflexivity).
  assert (Hfind : find_body Sample.alternative_view
                    (html (found_parts Sample.alternative_view))
                    (plain (found_parts Sample.alternative_view)) = Some false)
    by (vm_compute; reflexivity).
  assert (Hhtml : html (found_parts Sample.alternative_view) = Some Sample.html_kept)
    by (vm_compute; reflexivity).
  rewrite (@html_body_without_image_sources Sample.libraries Sample.alternative_view
             "a@example.com" Sample.html_kept "<p>hi</p>" "<p>hi</p>"
             {| Lxml.tag := "div"; Lxml.attrib := ∅; Lxml.text := "<p>hi</p>";
                Lxml.tail := EmptyString; Lxml.children := [] |}
             true [] Hfrom Hfind Hhtml eq_refl Hdecision eq_refl eq_refl).
  vm_compute. reflexivity.
Defined.

Lemma html_mode_means_cleaned_witness :
  exists h cleaned bytes,
    html (found_parts Sample.declared_view) = Some h
    /\ @clean_html Sample.libraries cleaner (@inlined Sample.libraries (body_data h))
       = Py.Ok cleaned
    /\ @unicode_decode Sample.libraries bytes "us-ascii" = Py.Ok [104%N; 105%N].
Proof.
  destruct (@html_mode_means_cleaned Sample.libraries Sample.declared_view [] []
              (context_of Sample.declared_view ("Hello", "a@example.com")
                 [104%N; 105%N] "us-ascii" false true))
    as (h & cleaned & bytes & Hh & _ & Hc & Hd & _).
  - vm_compute. reflexivity.
  - reflexivity.
  - exists h, cleaned, bytes. split; [exact Hh |]. split; [exact Hc | exact Hd].
Defined.

Lemma returned_charset_well_formed_witness :
  "latin-1" <> EmptyString /\ all_chars HeaderParams.is_value "latin-1" = true.
Proof.
  apply (@returned_charset_well_formed Sample.libraries Sample.picture_view [] []
           (context_of Sample.picture_view ("Hello", "a@example.com")
              [80%N; 78%N; 71%N] "latin-1" true false)).
  vm_compute. reflexivity.
Defined.

Lemma plain_render_ignores_the_html_libraries_witness :
  @get_context_data Cases.other_tools Cases.plain_view []
  = @get_context_data Sample.libraries Cases.plain_view [].
Proof.
  apply plain_render_ignores_the_html_libraries.
  - intros body charset. reflexivity.
  - vm_compute. discriminate.
Defined.

Lemma no_image_source_left_witness :
  In (Cases.leaf "img" {[ "alt" := "a" ]}) (findall_img (remove_sources Cases.page))
  /\ ({[ "alt" := "a" ]} : gmap string string) !! "src" = None.
Proof.
  assert (Hin : In (Cases.leaf "img" {[ "alt" := "a" ]})
                  (findall_img (remove_sources Cases.page)))
    by (vm_compute; left; reflexivity).
  split; [exact Hin |].
  exact (no_image_source_left Cases.page _ Hin).
Defined.

Lemma get_object_is_the_viewers_own_witness :
  @get_object Cases.hex (Cases.asks "a" ∅) Cases.table
  = Http.Done (10, Cases.stored 10 "a" Sample.alternative "alice" ∅)
  /\ Cases.table !! 10 = Some (Cases.stored 10 "a" Sample.alternative "alice" ∅).
Proof.
  assert (Hget : @get_object Cases.hex (Cases.asks "a" ∅) Cases.table
                 = Http.Done (10, Cases.stored 10 "a" Sample.alternative "alice" ∅))
    by (vm_compute; reflexivity).
  split; [exact Hget |].
  exact (proj1 (@get_object_is_the_viewers_own Cases.hex _ _ _ _ Hget)).
Defined.

Lemma post_toggles_one_flag_witness :
  @post Cases.hex (Cases.asks "a" Cases.toggle_form) Cases.table
  = Http.Done (Cases.starred, "/inbox/news@example.com/email/")
  /\ "/inbox/news@example.com/email/" = path (Cases.asks "a" Cases.toggle_form).
Proof.
  assert (Hpost : @post Cases.hex (Cases.asks "a" Cases.toggle_form) Cases.table
                  = Http.Done (Cases.starred, "/inbox/news@example.com/email/"))
    by (vm_compute; reflexivity).
  split; [exact Hpost |].
  exact (proj1 (@post_toggles_one_flag Cases.hex _ _ _ _ Hpost)).
Defined.

Lemma post_twice_restores_witness :
  @post Cases.hex (Cases.asks "a" Cases.toggle_form) Cases.table
  = Http.Done (Cases.starred, "/inbox/news@example.com/email/")
  /\ @post Cases.hex (Cases.asks "a" Cases.toggle_form) Cases.starred
     = Http.Done (Cases.table, "/inbox/news@example.com/email/").
Proof.
  assert (Hpost : @post Cases.hex (Cases.asks "a" Cases.toggle_form) Cases.table
                  = Http.Done (Cases.starred, "/inbox/news@example.com/email/"))
    by (vm_compute; reflexivity).
  split; [exact Hpost |].
  exact (@post_twice_restores Cases.hex _ _ _ _ Hpost).
Defined.

Lemma get_marks_the_message_read_witness :
  @get Sample.libraries Cases.hex (Cases.asks "a" ∅) Cases.table []
  = ([], Cases.shown, Http.Done Cases.context_10)
  /\ exists pk r r',
       @get_object Cases.hex (Cases.asks "a" ∅) Cases.table = Http.Done (pk, r)
       /\ Cases.shown !! pk = Some r'
       /\ forall f, f ∈ Store.flags r' <-> f ∈ Store.flags r \/ f = "read" \/ f = "seen".
Proof.
  assert (Hget : @get Sample.libraries Cases.hex (Cases.asks "a" ∅) Cases.table []
                 = ([], Cases.shown, Http.Done Cases.context_10))
    by (vm_compute; reflexivity).
  split; [exact Hget |].
  destruct (@get_marks_the_message_read Sample.libraries Cases.hex _ _ _ _ _ _ Hget)
    as (pk & r & r' & Hobj & _ & _ & Hrow & _ & _ & _ & _ & Hflags).
  exists pk, r, r'. split; [exact Hobj |]. split; [exact Hrow | exact Hflags].
Defined.

Lemma failed_get_saves_nothing_witness :
  @get Sample.libraries Cases.hex (Cases.asks "b" ∅) Cases.table []
  = ([], Cases.table, Http.Uncaught Py.KeyError)
  /\ Cases.table = Cases.table.
Proof.
  assert (Hget : @get Sample.libraries Cases.hex (Cases.asks "b" ∅) Cases.table []
                 = ([], Cases.table, Http.Uncaught Py.KeyError))
    by (vm_compute; reflexivity).
  split; [exact Hget |].
  apply (@failed_get_saves_nothing Sample.libraries Cases.hex _ _ _ _ _ _ Hget).
  intros ctx. discriminate.
Defined.

Lemma get_twice_is_get_once_witness :
  @get Sample.libraries Cases.hex (Cases.asks "a" ∅) Cases.shown []
  = ([], Cases.shown, Http.Done Cases.context_10).
Proof.
  apply (@get_twice_is_get_once Sample.libraries Cases.hex _ Cases.table).
  vm_compute. reflexivity.
Defined.
